(** * ClipBox: the clipboard history engine, its list view and the hotkey
    binding manager

    A shallow embedding of the [ClipBox] class of the TypeScript front end.
    The latest revision of the class (the one with favorites and the
    configurable global shortcut) is embedded statement by statement; the
    earlier revision [src/main.ts] has the same [addToHistory] and
    [moveItemToTop] bodies, except that its items carry no [is_favorite]
    field and its [render] reads the history without touching it.

    - JavaScript strings are sequences of UTF-16 code units: [list N].
    - The history array is a [list]; index 0 is the front.
    - [Date.now()] is an input: every call site receives its own reading.
    - DOM updates and console logging have no effect on the modelled state
      and are left out; [render] is kept for the one effect it has on the
      store (the in-place [sort] of [getFilteredItems]).
    - Calls to the backend and to the global-shortcut plugin are inputs
      (their results) or outputs (the command that is invoked); the
      keyboard navigation of [src/main.ts] is embedded on the selected
      index and the number of visible list elements. *)

From Stdlib Require Import ZArith NArith Ascii String DecimalString DecimalZ.
From stdpp Require Import base list gmap sorting.

Local Open Scope Z_scope.

(* ===================================================================== *)
(** ** JavaScript string and array primitives used by the class *)
(* ===================================================================== *)

Module JS.

Abbreviation jsstring := (list N).

(** A string literal of the source, as code units. *)
Definition js (s : String.string) : jsstring :=
  map N_of_ascii (list_ascii_of_string s).

(** [a === b] on strings. *)
Definition strictEq (a b : jsstring) : bool := bool_decide (a = b).

(** WhiteSpace and LineTerminator code points of ECMAScript, the ones
    [String.prototype.trim] strips. *)
Definition isWhiteSpace (c : N) : bool :=
  match c with
  | 9 | 10 | 11 | 12 | 13 | 32 | 160 | 5760
  | 8192 | 8193 | 8194 | 8195 | 8196 | 8197 | 8198 | 8199 | 8200
  | 8201 | 8202 | 8232 | 8233 | 8239 | 8287 | 12288 | 65279 => true
  | _ => false
  end%N.

Fixpoint trimStart (s : jsstring) : jsstring :=
  match s with
  | c :: s' => if isWhiteSpace c then trimStart s' else s
  | [] => []
  end.

Definition trimEnd (s : jsstring) : jsstring :=
  reverse (trimStart (reverse s)).

(** [s.trim()] *)
Definition trim (s : jsstring) : jsstring := trimEnd (trimStart s).

(** [s.startsWith(p)] *)
Fixpoint startsWith (s p : jsstring) : bool :=
  match p, s with
  | [], _ => true
  | _ :: _, [] => false
  | a :: p', b :: s' => if bool_decide (a = b) then startsWith s' p' else false
  end.

(** [s.includes(p)] *)
Fixpoint includes (s p : jsstring) : bool :=
  startsWith s p ||
  match s with
  | [] => false
  | _ :: s' => includes s' p
  end.

(** [s.substring(0, n)] *)
Definition substring0 (n : nat) (s : jsstring) : jsstring := take n s.

(** [s.replace(pat, rep)] with a string pattern: the first occurrence
    only. *)
Fixpoint replace (s pat rep : jsstring) : jsstring :=
  if startsWith s pat then rep ++ drop (length pat) s
  else match s with
       | [] => []
       | c :: s' => c :: replace s' pat rep
       end.

(** [n.toString()] for an integer-valued number: its decimal numeral. *)
Definition toString (n : Z) : jsstring :=
  js (NilEmpty.string_of_int (Z.to_int n)).

(** [!s] on a string: only the empty string is falsy. *)
Definition falsy (s : jsstring) : bool :=
  match s with [] => true | _ => false end.

Section Sort.
Context {A : Type} (comparefn : A → A → Z).

(** [Array.prototype.sort(comparefn)] is stable, and [comparefn a b > 0]
    puts [b] before [a].  With a consistent comparator the outcome is
    the stable ordering of the elements, computed here by insertion
    from the right end. *)
Fixpoint insert (x : A) (l : list A) : list A :=
  match l with
  | [] => [x]
  | y :: l' => if 0 <? comparefn x y then y :: insert x l' else x :: l
  end.

Definition sort (l : list A) : list A := foldr insert [] l.
End Sort.

End JS.
Import JS.

(* ===================================================================== *)
(** ** Data model *)
(* ===================================================================== *)

Inductive ItemType := text | image.

Module ClipboardItem.
Record t := mk {
  id : jsstring;
  content : jsstring;
  timestamp : Z;
  item_type : ItemType;
  image_path : option jsstring;   (* [undefined] is [None] *)
  is_favorite : bool
}.
End ClipboardItem.
Abbreviation ClipboardItem := ClipboardItem.t.

#[global] Instance ItemType_eq_dec : EqDecision ItemType.
Proof. solve_decision. Defined.

#[global] Instance ClipboardItem_eq_dec : EqDecision ClipboardItem.
Proof. solve_decision. Defined.

Inductive Filter := all | favorites.

(** The fields of [ClipBox] that are not DOM handles. *)
Record ClipBox := {
  clipboardHistory : list ClipboardItem;
  currentFilter : Filter;
  shortcutKey : jsstring
}.

Definition maxHistorySize : nat := 100.

Definition setHistory (h : list ClipboardItem) (st : ClipBox) : ClipBox :=
  {| clipboardHistory := h;
     currentFilter := currentFilter st;
     shortcutKey := shortcutKey st |}.

Definition setShortcutKey (k : jsstring) (st : ClipBox) : ClipBox :=
  {| clipboardHistory := clipboardHistory st;
     currentFilter := currentFilter st;
     shortcutKey := k |}.

(* ===================================================================== *)
(** ** History engine *)
(* ===================================================================== *)

(** [isBase64Image(content)] *)
Definition isBase64Image (content : jsstring) : bool :=
  startsWith content (js "data:image/") && includes content (js "base64,").

(** The comparator of both views: [(a, b) => b.timestamp - a.timestamp]. *)
Definition byTimestampDesc (a b : ClipboardItem) : Z :=
  ClipboardItem.timestamp b - ClipboardItem.timestamp a.

(** [getFilteredItems()]: the returned array together with the object
    afterwards.  In the favorites branch [filter] allocates a new array and
    [sort] reorders that copy.  In the other branch [sort] is called on
    [this.clipboardHistory] itself: the store is reordered in place and the
    returned array is the store. *)
Definition getFilteredItems (st : ClipBox) : list ClipboardItem * ClipBox :=
  match currentFilter st with
  | favorites =>
      (sort byTimestampDesc
         (filter (λ item, ClipboardItem.is_favorite item = true)
                 (clipboardHistory st)),
       st)
  | all =>
      let sorted := sort byTimestampDesc (clipboardHistory st) in
      (sorted, setHistory sorted st)
  end.

(** [render()]: what is left of it on the modelled state. *)
Definition render (st : ClipBox) : ClipBox := snd (getFilteredItems st).

(** One iteration of the duplicate scan of [addToHistory]: does the loop
    body return for this [item]? *)
Definition sameAs (content : jsstring) (item : ClipboardItem) : bool :=
  if isBase64Image content && isBase64Image (ClipboardItem.content item) then
    strictEq (substring0 200 content)
             (substring0 200 (ClipboardItem.content item))
  else
    strictEq (ClipboardItem.content item) content.

(** The early exits of [addToHistory]: the emptiness guard and the
    [for (const item of recentItems)] loop. *)
Definition isBlank (content : jsstring) : bool :=
  falsy content || strictEq (trim content) (js "").

Definition skipped (content : jsstring) (history : list ClipboardItem) : bool :=
  isBlank content || existsb (sameAs content) history.

(** The object literal [newItem]; [now_id] and [now_ts] are the readings of
    the two [Date.now()] calls. *)
Definition newItem (content : jsstring) (now_id now_ts : Z) : ClipboardItem :=
  let isImage := isBase64Image content in
  {| ClipboardItem.id := toString now_id;
     ClipboardItem.content := trim content;
     ClipboardItem.timestamp := now_ts;
     ClipboardItem.item_type := if isImage then image else text;
     ClipboardItem.image_path := if isImage then Some content else None;
     ClipboardItem.is_favorite := false |}.

(** [unshift] followed by the size limit. *)
Definition pushFront (item : ClipboardItem) (history : list ClipboardItem)
  : list ClipboardItem :=
  let history' := item :: history in
  if (maxHistorySize <? length history')%nat
  then take maxHistorySize history'
  else history'.

(** [addToHistory(content)] up to the calls of [saveHistory] and [render];
    this is all of the function in [src/main.ts]. *)
Definition addToHistory_store (content : jsstring) (now_id now_ts : Z)
    (st : ClipBox) : ClipBox :=
  if skipped content (clipboardHistory st) then st
  else setHistory (pushFront (newItem content now_id now_ts)
                             (clipboardHistory st)) st.

(** [addToHistory(content)]: the early exits return before [render]. *)
Definition addToHistory (content : jsstring) (now_id now_ts : Z)
    (st : ClipBox) : ClipBox :=
  if skipped content (clipboardHistory st) then st
  else render (setHistory (pushFront (newItem content now_id now_ts)
                                     (clipboardHistory st)) st).

(** [moveItemToTop(id)] up to the calls of [saveHistory] and [render];
    this is all of the function in [src/main.ts]. *)
Definition moveItemToTop_store (id : jsstring) (st : ClipBox)
  : option ClipBox :=
  if falsy id then None
  else match list_find (λ item, ClipboardItem.id item = id)
                       (clipboardHistory st) with
       | Some (S index, item) =>
           Some (setHistory (item :: delete (S index) (clipboardHistory st)) st)
       | _ => None
       end.

(** [moveItemToTop(id)]: [render] runs only inside the [index > 0] branch. *)
Definition moveItemToTop (id : jsstring) (st : ClipBox) : ClipBox :=
  match moveItemToTop_store id st with
  | Some st' => render st'
  | None => st
  end.

(** [deleteItem(id)] *)
Definition deleteItem (id : jsstring) (st : ClipBox) : ClipBox :=
  render (setHistory
            (filter (λ item, ClipboardItem.id item ≠ id) (clipboardHistory st))
            st).

(** [toggleFavorite(id)], for the value [newFavoriteState] the backend
    command returned: the first item found with this id is updated in
    place. *)
Definition setFavorite (b : bool) (item : ClipboardItem) : ClipboardItem :=
  {| ClipboardItem.id := ClipboardItem.id item;
     ClipboardItem.content := ClipboardItem.content item;
     ClipboardItem.timestamp := ClipboardItem.timestamp item;
     ClipboardItem.item_type := ClipboardItem.item_type item;
     ClipboardItem.image_path := ClipboardItem.image_path item;
     ClipboardItem.is_favorite := b |}.

Definition toggleFavorite (id : jsstring) (newFavoriteState : bool)
    (st : ClipBox) : ClipBox :=
  match list_find (λ item, ClipboardItem.id item = id) (clipboardHistory st) with
  | Some (index, item) =>
      render (setHistory
                (<[index := setFavorite newFavoriteState item]>
                   (clipboardHistory st)) st)
  | None => render st
  end.

(** [setFilter(filter)] *)
Definition setFilter (f : Filter) (st : ClipBox) : ClipBox :=
  render {| clipboardHistory := clipboardHistory st;
            currentFilter := f;
            shortcutKey := shortcutKey st |}.

(** [clearAllHistory()], for the answer the confirmation dialogs gave. *)
Definition clearAllHistory (confirmed : bool) (st : ClipBox) : ClipBox :=
  if confirmed then render (setHistory [] st) else st.

(** A run of the clipboard listener: one [addToHistory] per event, each with
    its own clock readings. *)
Record Capture := { payload : jsstring; clock_id : Z; clock_ts : Z }.

Definition ingest (c : Capture) (st : ClipBox) : ClipBox :=
  addToHistory (payload c) (clock_id c) (clock_ts c) st.

Definition ingestAll (cs : list Capture) (st : ClipBox) : ClipBox :=
  foldl (λ st c, ingest c st) st cs.

(** Everything that reaches the history: clipboard events and the clicks of
    the list view. *)
Inductive Event :=
  | ClipboardChanged (c : Capture)
  | ItemClicked (id : jsstring)
  | FavoriteClicked (id : jsstring) (newFavoriteState : bool)
  | DeleteClicked (id : jsstring)
  | TabClicked (f : Filter)
  | ClearAllClicked (confirmed : bool).

Definition handle (e : Event) (st : ClipBox) : ClipBox :=
  match e with
  | ClipboardChanged c => ingest c st
  | ItemClicked id => moveItemToTop id st
  | FavoriteClicked id b => toggleFavorite id b st
  | DeleteClicked id => deleteItem id st
  | TabClicked f => setFilter f st
  | ClearAllClicked confirmed => clearAllHistory confirmed st
  end.

Definition run (es : list Event) (st : ClipBox) : ClipBox :=
  foldl (λ st e, handle e st) st es.

(* ===================================================================== *)
(** ** Hotkey binding manager *)
(* ===================================================================== *)

(** Everything the shortcut code touches: the object, the [localStorage]
    slot ['clipboxShortcut'], and the shortcuts the operating system holds
    for the application. *)
Record World := {
  app : ClipBox;
  clipboxShortcut : option jsstring;
  registered : gset jsstring
}.

(** The global-shortcut plugin may reject a call; which calls it rejects is
    not decided by the class.  A rejected call leaves the registrations as
    they were. *)
Record Plugin := {
  register_refused : jsstring → gset jsstring → bool;
  unregister_refused : jsstring → gset jsstring → bool
}.

(** An awaited call either returns a value or throws. *)
Inductive Outcome (A : Type) : Type :=
  | Returned (a : A)
  | Thrown.
Arguments Returned {A} a.
Arguments Thrown {A}.

Definition Async (A : Type) : Type := World → Outcome A * World.

#[global] Instance Async_ret : MRet Async := λ A a w, (Returned a, w).

#[global] Instance Async_bind : MBind Async := λ A B f m w,
  match m w with
  | (Returned a, w') => f a w'
  | (Thrown, w') => (Thrown, w')
  end.

(** [try { body } catch { handler }] *)
Definition tryCatch {A} (body handler : Async A) : Async A := λ w,
  match body w with
  | (Returned a, w') => (Returned a, w')
  | (Thrown, w') => handler w'
  end.

Definition setRegistered (r : gset jsstring) (w : World) : World :=
  {| app := app w; clipboxShortcut := clipboxShortcut w; registered := r |}.

(** [unregister(key)] and [register(key, handler)] of the plugin. *)
Definition unregister (P : Plugin) (key : jsstring) : Async unit := λ w,
  if unregister_refused P key (registered w) then (Thrown, w)
  else (Returned (), setRegistered (registered w ∖ {[key]}) w).

Definition register (P : Plugin) (key : jsstring) : Async unit := λ w,
  if register_refused P key (registered w) then (Thrown, w)
  else (Returned (), setRegistered ({[key]} ∪ registered w) w).

(** [this.shortcutKey], [this.shortcutKey = key] and
    [localStorage.setItem('clipboxShortcut', key)]. *)
Definition readShortcutKey : Async jsstring := λ w,
  (Returned (shortcutKey (app w)), w).

Definition writeShortcutKey (key : jsstring) : Async unit := λ w,
  (Returned (),
   {| app := setShortcutKey key (app w);
      clipboxShortcut := clipboxShortcut w;
      registered := registered w |}).

Definition localStorage_setItem (key : jsstring) : Async unit := λ w,
  (Returned (),
   {| app := app w; clipboxShortcut := Some key; registered := registered w |}).

(** [unregisterGlobalShortcut(key)] *)
Definition unregisterGlobalShortcut (P : Plugin) (key : jsstring)
  : Async unit :=
  tryCatch (unregister P key) (mret ()).

(** [registerGlobalShortcut(key)]: the inner [try] drops a failed
    [unregister], the outer one drops a failed [register]. *)
Definition registerGlobalShortcut (P : Plugin) (key : jsstring)
  : Async unit :=
  tryCatch
    (tryCatch (unregister P key) (mret ());;
     register P key)
    (mret ()).

(** [key.replace('Meta', 'Cmd')] *)
Definition fixedKey (key : jsstring) : jsstring :=
  replace key (js "Meta") (js "Cmd").

(** [saveShortcutKey(key)]; the 100 ms pause after the old key is
    unregistered changes nothing in the modelled state. *)
Definition saveShortcutKey (P : Plugin) (key : jsstring) : Async unit :=
  tryCatch
    (old ← readShortcutKey;
     (if negb (falsy old) && negb (strictEq old key)
      then tryCatch (unregisterGlobalShortcut P old) (mret ())
      else mret ());;
     localStorage_setItem (fixedKey key);;
     registerGlobalShortcut P (fixedKey key);;
     writeShortcutKey (fixedKey key))
    (mret ()).

(** A step that leaves the object and the stored key alone and adds no
    shortcut. *)
Definition shrinks (w w' : World) : Prop :=
  app w' = app w
  ∧ clipboxShortcut w' = clipboxShortcut w
  ∧ registered w' ⊆ registered w.

(* ===================================================================== *)
(** ** The orders used in the statements *)
(* ===================================================================== *)

(** [newerFirst a b]: [a] may stand before [b] in a list ordered by
    timestamp, newest first. *)
Definition newerFirst (a b : ClipboardItem) : Prop :=
  ClipboardItem.timestamp b ≤ ClipboardItem.timestamp a.

(** Only whitespace, or nothing at all. *)
Definition whitespaceOnly (s : jsstring) : Prop :=
  Forall (λ c, isWhiteSpace c = true) s.

(* ===================================================================== *)
(** ** List view helpers *)
(* ===================================================================== *)

(** [truncateContent(content, maxLength)]; every call in the class leaves
    [maxLength] at its default, 200. *)
Definition truncateContent (content : jsstring) (maxLength : nat) : jsstring :=
  if (length content <=? maxLength)%nat then content
  else substring0 maxLength content ++ js "...".

(** The three fixed labels of [formatTime]: '刚刚', '分钟前', '小时前'. *)
Definition label_justNow : jsstring := [21018; 21018]%N.
Definition label_minutesAgo : jsstring := [20998; 38047; 21069]%N.
Definition label_hoursAgo : jsstring := [23567; 26102; 21069]%N.

(** What [formatTime] returns: one of its own strings, or the date as the
    runtime formats it for the zh-CN locale (not modelled further). *)
Inductive TimeLabel :=
  | Label (s : jsstring)
  | LocaleDate (timestamp : Z).

(** [formatTime(timestamp)], with [now] the reading of [Date.now()]. *)
Definition formatTime (timestamp now : Z) : TimeLabel :=
  let diff := now - timestamp in
  if diff <? 60000 then Label label_justNow
  else if diff <? 3600000 then
    Label (toString (diff / 60000) ++ label_minutesAgo)
  else if diff <? 86400000 then
    Label (toString (diff / 3600000) ++ label_hoursAgo)
  else LocaleDate timestamp.

(** The item a handler makes, if any: only the clipboard listener makes
    one, and only when the payload is not skipped. *)
Definition madeBy (e : Event) (st : ClipBox) : list ClipboardItem :=
  match e with
  | ClipboardChanged c =>
      if skipped (payload c) (clipboardHistory st) then []
      else [newItem (payload c) (clock_id c) (clock_ts c)]
  | _ => []
  end.

(** The clipboard events of a run, in order, and the item each would
    store. *)
Definition captures (es : list Event) : list Capture :=
  omap (λ e, match e with ClipboardChanged c => Some c | _ => None end) es.

Definition itemOf (c : Capture) : ClipboardItem :=
  newItem (payload c) (clock_id c) (clock_ts c).

(* ===================================================================== *)
(** ** Copying an item back to the clipboard *)
(* ===================================================================== *)

(** The backend commands the copy functions invoke. *)
Inductive Invoke :=
  | write_to_clipboard (content : jsstring)
  | copy_image_to_clipboard (imagePath : jsstring)
  | copy_base64_image_to_clipboard (base64Content : jsstring).

(** Truthiness of an optional string: [undefined] and [''] are falsy. *)
Definition truthy (s : option jsstring) : bool :=
  match s with
  | Some (_ :: _) => true
  | _ => false
  end.

(** [copyToClipboard(content, imagePath)]: the command it invokes. *)
Definition copyToClipboard (content : jsstring) (imagePath : option jsstring)
  : option Invoke :=
  if isBase64Image content then Some (write_to_clipboard content)
  else match imagePath with
       | Some (c :: p) => Some (copy_image_to_clipboard (c :: p))
       | _ => Some (write_to_clipboard content)
       end.

(** [copyImageToClipboard(imagePath)]: nothing is invoked for an empty path
    or for the string 'undefined'. *)
Definition copyImageToClipboard (imagePath : jsstring) : option Invoke :=
  if negb (falsy imagePath)
     && negb (strictEq imagePath (js "undefined"))
     && negb (strictEq imagePath (js ""))
  then
    if startsWith imagePath (js "data:image/")
    then Some (copy_base64_image_to_clipboard imagePath)
    else Some (copy_image_to_clipboard imagePath)
  else None.

(** [copyBase64ImageToClipboard(base64Content)] *)
Definition copyBase64ImageToClipboard (base64Content : jsstring)
  : option Invoke :=
  if negb (falsy base64Content)
     && startsWith base64Content (js "data:image/")
  then Some (copy_base64_image_to_clipboard base64Content)
  else None.

(** The choice the click listener and [copySelectedItem] make for the item
    they found. *)
Definition copyItem (clipboardItem : ClipboardItem) : option Invoke :=
  match ClipboardItem.item_type clipboardItem with
  | image =>
      match ClipboardItem.image_path clipboardItem with
      | Some (c :: p) =>
          if negb (strictEq (c :: p) (js "undefined"))
          then copyImageToClipboard (c :: p)
          else if startsWith (ClipboardItem.content clipboardItem)
                             (js "data:image/")
          then copyBase64ImageToClipboard (ClipboardItem.content clipboardItem)
          else copyToClipboard (ClipboardItem.content clipboardItem)
                               (ClipboardItem.image_path clipboardItem)
      | _ =>
          if startsWith (ClipboardItem.content clipboardItem)
                        (js "data:image/")
          then copyBase64ImageToClipboard (ClipboardItem.content clipboardItem)
          else copyToClipboard (ClipboardItem.content clipboardItem)
                               (ClipboardItem.image_path clipboardItem)
      end
  | text =>
      copyToClipboard (ClipboardItem.content clipboardItem)
                      (ClipboardItem.image_path clipboardItem)
  end.

(** [clearAllHistory()] from the two dialogs: [native] is what [confirm]
    returned ([None] for [undefined]), [custom] is the answer given in the
    modal that is shown when the first answer is missing or negative. *)
Definition clearAllConfirmed (native : option bool) (custom : bool) : bool :=
  match native with
  | Some true => true
  | _ => custom
  end.

(** [loadHistory()]: [None] is a rejected [invoke], [Some None] a [null]
    result. *)
Definition loadHistory (result : option (option (list ClipboardItem)))
    (st : ClipBox) : ClipBox :=
  match result with
  | Some (Some history) => setHistory history st
  | Some None => setHistory [] st
  | None => setHistory [] st
  end.

(* ===================================================================== *)
(** ** Keyboard navigation (src/main.ts) *)
(* ===================================================================== *)

Inductive NavKey :=
  | ArrowDown
  | ArrowUp
  | Enter
  | Escape
  | Digit (d : Z)      (* the keys '1' to '9' *)
  | OtherKey.

Inductive NavEffect :=
  | NoEffect
  | CopySelected       (* [copySelectedItem()] *)
  | MinimizeToTray.    (* [invoke('minimize_to_tray')] *)

(** [handleKeyboardNavigation(e)] on [selectedIndex], for [visible] visible
    list elements; [inSearch] says that the search box has the focus,
    [ctrlOrMeta] that Ctrl or the Meta key is held. *)
Definition handleKeyboardNavigation (key : NavKey) (inSearch ctrlOrMeta : bool)
    (visible : nat) (selectedIndex : Z) : Z * NavEffect :=
  if (visible =? 0)%nat then (selectedIndex, NoEffect)
  else
    match key with
    | ArrowDown => (Z.min (selectedIndex + 1) (Z.of_nat visible - 1), NoEffect)
    | ArrowUp => (Z.max (selectedIndex - 1) 0, NoEffect)
    | Enter =>
        if (0 <=? selectedIndex) && (selectedIndex <? Z.of_nat visible)
        then (selectedIndex, CopySelected)
        else (selectedIndex, NoEffect)
    | Escape => (selectedIndex, MinimizeToTray)
    | Digit d =>
        if (1 <=? d) && (d <=? 9) && negb inSearch && negb ctrlOrMeta
        then
          let index := d - 1 in
          if index <? Z.of_nat visible then (index, CopySelected)
          else (selectedIndex, NoEffect)
        else (selectedIndex, NoEffect)
    | OtherKey => (selectedIndex, NoEffect)
    end.

(* ===================================================================== *)
(** ** More of the hotkey binding manager *)
(* ===================================================================== *)

(** [getDefaultShortcutKey()], for the outcome of [platform()]. *)
Definition getDefaultShortcutKey (currentPlatform : Outcome jsstring)
  : jsstring :=
  match currentPlatform with
  | Returned p =>
      if strictEq p (js "macos") then js "Cmd+Control+v" else js "Ctrl+Alt+v"
  | Thrown => js "Cmd+Control+v"
  end.

(** [localStorage.getItem('clipboxShortcut')] *)
Definition localStorage_getItem : Async (option jsstring) := λ w,
  (Returned (clipboxShortcut w), w).

(** [loadShortcutKey()] *)
Definition loadShortcutKey (P : Plugin) (currentPlatform : Outcome jsstring)
  : Async jsstring :=
  tryCatch
    (saved ← localStorage_getItem;
     match saved with
     | Some (c :: s) =>
         registerGlobalShortcut P (fixedKey (c :: s));;
         mret (fixedKey (c :: s))
     | _ =>
         registerGlobalShortcut P (getDefaultShortcutKey currentPlatform);;
         mret (getDefaultShortcutKey currentPlatform)
     end)
    (registerGlobalShortcut P (getDefaultShortcutKey currentPlatform);;
     mret (getDefaultShortcutKey currentPlatform)).

(** The shortcut part of [init()]:
    [this.shortcutKey = await this.loadShortcutKey()]. *)
Definition initShortcutKey (P : Plugin) (currentPlatform : Outcome jsstring)
  : Async unit :=
  key ← loadShortcutKey P currentPlatform;
  writeShortcutKey key.








(** [formatShortcutDisplay(key)] *)
Definition formatShortcutDisplay (key : jsstring) : jsstring :=
  if falsy key then js ""
  else
    replace
      (replace
         (replace (replace key (js "Cmd") (js "Command"))
                  (js "Control") (js "Control"))
         (js "Shift") (js "Shift"))
      (js "Alt") (js "Option").

(** *** The guard of the registered callback

    The callback closes over [isShortcutProcessing].  A trigger that finds
    the flag set returns at once; otherwise it sets the flag and awaits
    [toggleAppVisibility()], which catches its own errors; when that
    settles, a 300 ms timer is started whose expiry clears the flag.  The
    state counts the invocations that are awaiting the toggle, the timers
    that are running, and what has happened so far. *)
Record Guard := {
  isShortcutProcessing : bool;
  awaiting : nat;
  timers : nat;
  toggled : nat;
  expired : nat
}.

Inductive GuardEvent :=
  | Triggered        (* the operating system delivers the shortcut *)
  | ToggleSettled    (* an awaited [toggleAppVisibility()] settles *)
  | TimerExpired.    (* a running 300 ms timer expires *)

Definition guard0 : Guard :=
  {| isShortcutProcessing := false; awaiting := 0; timers := 0;
     toggled := 0; expired := 0 |}.

Definition guardStep (g : Guard) (e : GuardEvent) : Guard :=
  match e with
  | Triggered =>
      if isShortcutProcessing g then g
      else {| isShortcutProcessing := true;
              awaiting := S (awaiting g);
              timers := timers g;
              toggled := S (toggled g);
              expired := expired g |}
  | ToggleSettled =>
      match awaiting g with
      | O => g
      | S n => {| isShortcutProcessing := isShortcutProcessing g;
                  awaiting := n;
                  timers := S (timers g);
                  toggled := toggled g;
                  expired := expired g |}
      end
  | TimerExpired =>
      match timers g with
      | O => g
      | S n => {| isShortcutProcessing := false;
                  awaiting := awaiting g;
                  timers := n;
                  toggled := toggled g;
                  expired := S (expired g) |}
      end
  end.

Definition guardRun (es : list GuardEvent) : Guard := foldl guardStep guard0 es.

(* ===================================================================== *)
(** ** Sample data for the concrete runs *)
(* ===================================================================== *)

Module Sample.

(** [E1] was captured after [E2]; [E2] is a favorite. *)
Definition E1 : ClipboardItem :=
  {| ClipboardItem.id := js "2";
     ClipboardItem.content := js "world";
     ClipboardItem.timestamp := 2;
     ClipboardItem.item_type := text;
     ClipboardItem.image_path := None;
     ClipboardItem.is_favorite := false |}.

Definition E2 : ClipboardItem :=
  {| ClipboardItem.id := js "1";
     ClipboardItem.content := js "hello";
     ClipboardItem.timestamp := 1;
     ClipboardItem.item_type := text;
     ClipboardItem.image_path := None;
     ClipboardItem.is_favorite := true |}.

Definition box (f : Filter) (h : list ClipboardItem) : ClipBox :=
  {| clipboardHistory := h; currentFilter := f;
     shortcutKey := js "Ctrl+Alt+v" |}.

Definition capture (s : String.string) (now : Z) : Capture :=
  {| payload := js s; clock_id := now; clock_ts := now |}.

(** A plugin that rejects every [register] and accepts every
    [unregister], and one that accepts everything. *)
Definition rejecting : Plugin :=
  {| register_refused := λ _ _, true; unregister_refused := λ _ _, false |}.

Definition accepting : Plugin :=
  {| register_refused := λ _ _, false; unregister_refused := λ _ _, false |}.

(** Bound to Ctrl+Alt+v, as after start-up on Windows. *)
Definition bound : World :=
  {| app := box all [];
     clipboxShortcut := Some (js "Ctrl+Alt+v");
     registered := {[ js "Ctrl+Alt+v" ]} |}.

End Sample.

(* ===================================================================== *)
(** ** Facts about the JavaScript primitives *)
(* ===================================================================== *)

Section JSFacts.

Lemma js_inj s1 s2 : js s1 = js s2 → s1 = s2.
Proof.
  unfold js. intros H.
  rewrite <- (string_of_list_ascii_of_string s1),
          <- (string_of_list_ascii_of_string s2).
  f_equal. revert H.
  generalize (list_ascii_of_string s1) (list_ascii_of_string s2).
  induction l as [|a l IH]; intros [|b k]; simpl; try discriminate; auto.
  intros [= Hab Hlk]. f_equal; [|by apply IH].
  rewrite <- (ascii_N_embedding a), <- (ascii_N_embedding b).
  by rewrite Hab.
Qed.

(** Different integers print differently. *)
Lemma toString_inj n m : toString n = toString m → n = m.
Proof.
  unfold toString. intros H%js_inj.
  pose proof (NilEmpty.isi (Z.to_int n)) as Hn.
  rewrite H, NilEmpty.isi in Hn. injection Hn as Hn.
  rewrite <- (DecimalZ.of_to n), <- (DecimalZ.of_to m). by rewrite Hn.
Qed.

Lemma toString_nonempty n : toString n ≠ [].
Proof.
  unfold toString. change [] with (js EmptyString). intros H%js_inj.
  destruct (Z.to_int n) as [u|u] eqn:E; simpl in H; [|discriminate].
  destruct u; try discriminate.
  destruct n as [|p|p]; try discriminate.
  simpl in E. injection E as E.
  by apply DecimalPos.Unsigned.to_uint_nonnil in E.
Qed.

End JSFacts.

Section TrimFacts.

Lemma trimStart_nil s : trimStart s = [] ↔ whitespaceOnly s.
Proof.
  unfold whitespaceOnly. induction s as [|c s IH]; simpl.
  - split; [constructor | done].
  - destruct (isWhiteSpace c) eqn:Hc.
    + rewrite IH. split; [by constructor | by inversion 1].
    + split; [done | inversion 1; congruence].
Qed.

Lemma trimStart_head s c r : trimStart s = c :: r → isWhiteSpace c = false.
Proof.
  induction s as [|d s IH]; simpl; [done|].
  destruct (isWhiteSpace d) eqn:Hd; [done|]. by intros [= <- _].
Qed.

Lemma trim_nil s : trim s = [] ↔ whitespaceOnly s.
Proof.
  unfold trim, trimEnd. rewrite <- trimStart_nil.
  split.
  - intros H. apply (f_equal reverse) in H.
    rewrite reverse_involutive, reverse_nil in H.
    apply trimStart_nil in H. unfold whitespaceOnly in H.
    rewrite Forall_reverse in H.
    destruct (trimStart s) as [|c r] eqn:E; [done|].
    apply trimStart_head in E. inversion H; congruence.
  - by intros ->.
Qed.

(** The guard [!content || content.trim() === ''] fires exactly on the
    empty string and on strings of whitespace. *)
Lemma isBlank_spec s : isBlank s = true ↔ whitespaceOnly s.
Proof.
  unfold isBlank, strictEq. change (js "") with (@nil N).
  rewrite orb_true_iff, bool_decide_eq_true, trim_nil.
  split; [|by right].
  intros [H|H]; [|done]. destruct s; [constructor | done].
Qed.

End TrimFacts.

Section SortFacts.
Context {A : Type} (key : A → Z).

(** The comparator shape of the class: [(a, b) => key(b) - key(a)]. *)
Local Abbreviation cmp := (λ a b : A, key b - key a).
Local Abbreviation desc := (λ a b : A, key b ≤ key a).

Lemma insert_Permutation x l : insert cmp x l ≡ₚ x :: l.
Proof.
  induction l as [|y l IH]; simpl; [done|].
  destruct (0 <? cmp x y); [|done].
  rewrite IH. apply Permutation_swap.
Qed.

Lemma sort_Permutation l : sort cmp l ≡ₚ l.
Proof.
  induction l as [|x l IH]; simpl; [done|].
  by rewrite insert_Permutation, IH.
Qed.

Lemma length_sort l : length (sort cmp l) = length l.
Proof. by rewrite sort_Permutation. Qed.

Lemma insert_StronglySorted x l :
  StronglySorted desc l → StronglySorted desc (insert cmp x l).
Proof.
  induction 1 as [|y l Hl IH Hy]; simpl.
  - repeat constructor.
  - destruct (Z.ltb_spec 0 (cmp x y)) as [Hlt|Hge]; simpl in *.
    + constructor; [done|].
      rewrite insert_Permutation. constructor; [lia | done].
    + constructor; [by constructor|].
      constructor; [lia|].
      eapply Forall_impl; [exact Hy|]. simpl. intros z Hz. lia.
Qed.

Lemma sort_StronglySorted l : StronglySorted desc (sort cmp l).
Proof.
  induction l as [|x l IH]; simpl; [constructor|].
  by apply insert_StronglySorted.
Qed.

(** A list already in order is left as it is. *)
Lemma sort_Sorted_id l : Sorted desc l → sort cmp l = l.
Proof.
  induction 1 as [|x l Hl IH Hx]; simpl; [done|].
  rewrite IH. destruct Hx as [|y l Hxy]; simpl; [done|].
  destruct (Z.ltb_spec 0 (cmp x y)) as [Hlt|Hge]; [|done].
  simpl in *; lia.
Qed.

(** Stability: the elements of one key keep their relative order. *)
Lemma insert_stable k x l :
  filter (λ a, key a = k) (insert cmp x l)
  = filter (λ a, key a = k) (x :: l).
Proof.
  induction l as [|y l IH]; simpl; [done|].
  destruct (Z.ltb_spec 0 (cmp x y)) as [Hlt|Hge]; [|done].
  rewrite !filter_cons in *. simpl in *.
  destruct (decide (key y = k)) as [Hy|Hy], (decide (key x = k)) as [Hx|Hx];
    try lia; by rewrite IH.
Qed.

Lemma sort_stable k l :
  filter (λ a, key a = k) (sort cmp l) = filter (λ a, key a = k) l.
Proof.
  induction l as [|x l IH]; simpl; [done|].
  by rewrite insert_stable, !filter_cons, IH.
Qed.

(** Two orderings of the same elements show the same keys in the same
    places. *)
Lemma sorted_keys_unique l1 l2 :
  StronglySorted desc l1 → StronglySorted desc l2 → l1 ≡ₚ l2 →
  key <$> l1 = key <$> l2.
Proof.
  intros H1 H2 Hp.
  assert (Hmap : ∀ l, StronglySorted desc l → StronglySorted (flip Z.le) (key <$> l)).
  { induction 1 as [|x l Hl IH Hx]; simpl; constructor; [done|].
    by apply Forall_fmap. }
  assert (Hanti : AntiSymm (=) (flip Z.le)).
  { intros x y; unfold flip; lia. }
  apply (StronglySorted_unique (flip Z.le)); [by apply Hmap..|].
  by rewrite Hp.
Qed.

End SortFacts.

(* ===================================================================== *)
(** ** The history engine: bound, rejection, normalization, ids *)
(* ===================================================================== *)

Section HistoryFacts.

Implicit Types (st : ClipBox) (h : list ClipboardItem)
               (item : ClipboardItem) (content : jsstring).

Lemma pushFront_take item h :
  pushFront item h = take maxHistorySize (item :: h).
Proof.
  unfold pushFront.
  destruct (Nat.ltb_spec maxHistorySize (length (item :: h))); [done|].
  by rewrite take_ge.
Qed.

Lemma length_pushFront item h :
  (length (pushFront item h) ≤ maxHistorySize)%nat.
Proof. rewrite pushFront_take, length_take. lia. Qed.

Lemma elem_of_pushFront item h : item ∈ pushFront item h.
Proof. rewrite pushFront_take. apply list_elem_of_here. Qed.

Lemma render_Permutation st :
  clipboardHistory (render st) ≡ₚ clipboardHistory st.
Proof.
  unfold render, getFilteredItems.
  destruct (currentFilter st); simpl; [|done].
  apply (sort_Permutation ClipboardItem.timestamp).
Qed.

Lemma render_favorites st : currentFilter st = favorites → render st = st.
Proof. unfold render, getFilteredItems. by intros ->. Qed.

Lemma length_addToHistory content now_id now_ts st :
  (length (clipboardHistory st) ≤ maxHistorySize)%nat →
  (length (clipboardHistory (addToHistory content now_id now_ts st))
     ≤ maxHistorySize)%nat.
Proof.
  intros Hb. unfold addToHistory.
  destruct (skipped _ _); [done|].
  rewrite render_Permutation. simpl. apply length_pushFront.
Qed.

Lemma sameAs_own_item content now_id now_ts :
  trim content = content →
  sameAs content (newItem content now_id now_ts) = true.
Proof.
  intros Ht. unfold sameAs, newItem, strictEq; simpl. rewrite Ht.
  destruct (isBase64Image content); simpl; by apply bool_decide_eq_true.
Qed.

(** A payload without surrounding whitespace is stored at most once by two
    consecutive events. *)
Lemma addToHistory_twice_trimmed content t1 t1' t2 t2' st :
  trim content = content →
  addToHistory content t2 t2' (addToHistory content t1 t1' st)
  = addToHistory content t1 t1' st.
Proof.
  intros Ht.
  destruct (skipped content (clipboardHistory st)) eqn:Hs.
  - unfold addToHistory. by rewrite !Hs.
  - unfold addToHistory at 2 3. rewrite Hs.
    set (st' := render (setHistory _ st)).
    assert (Hin : newItem content t1 t1' ∈ clipboardHistory st').
    { subst st'. rewrite render_Permutation. simpl. apply elem_of_pushFront. }
    unfold addToHistory.
    assert (skipped content (clipboardHistory st') = true) as ->; [|done].
    unfold skipped. apply orb_true_iff. right.
    apply existsb_exists. exists (newItem content t1 t1').
    split; [by apply list_elem_of_In | by apply sameAs_own_item].
Qed.

(** The bound survives every handler, not only the clipboard listener. *)
Lemma length_moveItemToTop id st :
  length (clipboardHistory (moveItemToTop id st))
  = length (clipboardHistory st).
Proof.
  unfold moveItemToTop, moveItemToTop_store.
  destruct (falsy id); [done|].
  destruct (list_find _ _) as [[[|i] x]|] eqn:Hf; [done| |done].
  rewrite render_Permutation. simpl.
  apply list_find_Some in Hf as (Hi & _ & _).
  rewrite length_delete by (by eexists).
  apply lookup_lt_Some in Hi. lia.
Qed.

Lemma length_handle e st :
  (length (clipboardHistory st) ≤ maxHistorySize)%nat →
  (length (clipboardHistory (handle e st)) ≤ maxHistorySize)%nat.
Proof.
  intros Hb. destruct e as [c|id|id b|id|f|[]]; simpl.
  - by apply length_addToHistory.
  - by rewrite length_moveItemToTop.
  - unfold toggleFavorite.
    destruct (list_find _ _) as [[i x]|]; rewrite render_Permutation; simpl;
      [by rewrite length_insert | done].
  - unfold deleteItem. rewrite render_Permutation. simpl.
    etrans; [apply length_filter | done].
  - unfold setFilter. by rewrite render_Permutation.
  - unfold clearAllHistory. rewrite render_Permutation. simpl. lia.
  - done.
Qed.

Lemma length_run es st :
  (length (clipboardHistory st) ≤ maxHistorySize)%nat →
  (length (clipboardHistory (run es st)) ≤ maxHistorySize)%nat.
Proof.
  revert st. induction es as [|e es IH]; intros st Hb; simpl; [done|].
  by apply IH, length_handle.
Qed.

(** As long as the clock readings taken for ids are pairwise different and
    new to the history, the ids in the history stay pairwise different. *)
Lemma ingestAll_ids_NoDup cs st :
  NoDup (ClipboardItem.id <$> clipboardHistory st) →
  (∀ item c, item ∈ clipboardHistory st → c ∈ cs →
             ClipboardItem.id item ≠ toString (clock_id c)) →
  NoDup (clock_id <$> cs) →
  NoDup (ClipboardItem.id <$> clipboardHistory (ingestAll cs st)).
Proof.
  revert st. induction cs as [|c cs IH]; intros st Hnd Hfresh Hclk; [done|].
  change (ingestAll (c :: cs) st) with (ingestAll cs (ingest c st)).
  rewrite fmap_cons in Hclk. apply NoDup_cons in Hclk as [Hc Hclk].
  assert (Hkept : ∀ x, x ∈ pushFront
                           (newItem (payload c) (clock_id c) (clock_ts c))
                           (clipboardHistory st) →
                       x = newItem (payload c) (clock_id c) (clock_ts c)
                       ∨ x ∈ clipboardHistory st).
  { intros x Hx. rewrite pushFront_take in Hx.
    apply subseteq_take, elem_of_cons in Hx. done. }
  apply IH; [| |done]; unfold ingest, addToHistory;
    destruct (skipped _ _); try done.
  - rewrite render_Permutation. simpl. rewrite pushFront_take, fmap_take.
    eapply sublist_NoDup; [|apply sublist_take].
    rewrite fmap_cons. apply NoDup_cons. split; [|done].
    intros (item & Hid & Hin)%list_elem_of_fmap.
    eapply Hfresh; [exact Hin | apply list_elem_of_here | done].
  - intros item c' Hin Hc'. eapply Hfresh; [done | by apply list_elem_of_further].
  - intros item c' Hin Hc'. rewrite render_Permutation in Hin. simpl in Hin.
    apply Hkept in Hin as [->|Hin].
    + simpl. intros Heq%toString_inj. apply Hc.
      apply list_elem_of_fmap. by exists c'.
    + eapply Hfresh; [done | by apply list_elem_of_further].
Qed.

End HistoryFacts.


(** C2. Starting within the bound, no run of clipboard events (and no run
    of clipboard events mixed with clicks) takes the history above
    [maxHistorySize] (100); and an accepted event keeps exactly the first
    [maxHistorySize] entries of the history with the new item put in front,
    so what goes beyond the bound falls off the tail. *)
Theorem history_bounded (cs : list Capture) (st : ClipBox) :
  (length (clipboardHistory st) ≤ maxHistorySize)%nat →
  (length (clipboardHistory (ingestAll cs st)) ≤ maxHistorySize)%nat
  ∧ (∀ es, (length (clipboardHistory (run es st)) ≤ maxHistorySize)%nat)
  ∧ ∀ content now_id now_ts,
      skipped content (clipboardHistory st) = false →
      let kept := take maxHistorySize
                    (newItem content now_id now_ts :: clipboardHistory st) in
      clipboardHistory (addToHistory_store content now_id now_ts st) = kept
      ∧ clipboardHistory (addToHistory content now_id now_ts st) ≡ₚ kept.
Proof.
  intros Hb. split; [|split].
  - revert st Hb. induction cs as [|c cs IH]; intros st Hb; simpl; [done|].
    apply IH. by apply length_addToHistory.
  - intros es. by apply length_run.
  - intros content now_id now_ts Hs kept.
    unfold addToHistory_store, addToHistory. rewrite Hs. simpl.
    rewrite render_Permutation. simpl.
    by rewrite pushFront_take.
Qed.

Lemma history_bounded_witness :
  (length (clipboardHistory (Sample.box all [Sample.E1; Sample.E2]))
     ≤ maxHistorySize)%nat
  ∧ (length (clipboardHistory
       (ingestAll [Sample.capture "a" 3; Sample.capture "b" 4]
                  (Sample.box all [Sample.E1; Sample.E2])))
     ≤ maxHistorySize)%nat.
Proof.
  split; [vm_compute; lia|].
  apply (history_bounded [Sample.capture "a" 3; Sample.capture "b" 4]
                         (Sample.box all [Sample.E1; Sample.E2])).
  vm_compute; lia.
Defined.

(** C8. [addToHistory] is a total function of its string argument, and on
    both of its early exits (empty or whitespace-only content, or an item of
    the history that the duplicate scan matches) it hands back the object
    exactly as it was: nothing is inserted, reordered or dropped. *)
Theorem addToHistory_rejection_atomic
    (content : jsstring) (now_id now_ts : Z) (st : ClipBox) :
  whitespaceOnly content
  ∨ (∃ item, item ∈ clipboardHistory st ∧ sameAs content item = true) →
  skipped content (clipboardHistory st) = true
  ∧ addToHistory content now_id now_ts st = st.
Proof.
  intros H.
  assert (Hs : skipped content (clipboardHistory st) = true).
  { unfold skipped. apply orb_true_iff. destruct H as [H|(item & Hin & Hsame)].
    - left. by apply isBlank_spec.
    - right. apply existsb_exists. exists item.
      split; [by apply list_elem_of_In | done]. }
  split; [done|]. unfold addToHistory. by rewrite Hs.
Qed.

Lemma addToHistory_rejection_atomic_witness :
  whitespaceOnly (js "  ")
  ∧ addToHistory (js "  ") 3 3 (Sample.box all [Sample.E1; Sample.E2])
    = Sample.box all [Sample.E1; Sample.E2].
Proof.
  assert (Hw : whitespaceOnly (js "  ")) by (repeat constructor).
  split; [exact Hw|].
  apply (addToHistory_rejection_atomic (js "  ") 3 3
           (Sample.box all [Sample.E1; Sample.E2])).
  left. exact Hw.
Defined.

(** C10. An accepted event stores an item whose [content] is the trimmed
    payload; when the payload is a base64 image the item is an image and its
    [image_path] is the payload as it came, untrimmed; otherwise the item is
    text and has no [image_path]. *)
Theorem accepted_item_normalized
    (content : jsstring) (now_id now_ts : Z) (st : ClipBox) :
  skipped content (clipboardHistory st) = false →
  let item := newItem content now_id now_ts in
  item ∈ clipboardHistory (addToHistory content now_id now_ts st)
  ∧ head (clipboardHistory (addToHistory_store content now_id now_ts st))
    = Some item
  ∧ ClipboardItem.content item = trim content
  ∧ (isBase64Image content = true →
       ClipboardItem.item_type item = image
       ∧ ClipboardItem.image_path item = Some content)
  ∧ (isBase64Image content = false →
       ClipboardItem.item_type item = text
       ∧ ClipboardItem.image_path item = None).
Proof.
  intros Hs item. unfold addToHistory, addToHistory_store. rewrite Hs.
  split; [|split; [|split; [|split]]].
  - rewrite render_Permutation. simpl. apply elem_of_pushFront.
  - simpl. by rewrite pushFront_take.
  - done.
  - subst item. unfold newItem. simpl. by intros ->.
  - subst item. unfold newItem. simpl. by intros ->.
Qed.

Lemma accepted_item_normalized_witness :
  skipped (js "data:image/png;base64,iVBORw0KGgo= ") [Sample.E1] = false
  ∧ ClipboardItem.image_path
      (newItem (js "data:image/png;base64,iVBORw0KGgo= ") 3 3)
    = Some (js "data:image/png;base64,iVBORw0KGgo= ").
Proof.
  split; [reflexivity|].
  apply (accepted_item_normalized (js "data:image/png;base64,iVBORw0KGgo= ")
           3 3 (Sample.box all [Sample.E1])); reflexivity.
Defined.

(** C5, as the code has it.  The id of an item is the decimal numeral of the
    clock reading taken for it, so two items made at different readings
    have different ids, whatever their payloads and timestamps. *)
Theorem ids_differ_across_clock_readings
    (c1 c2 : jsstring) (now_id1 now_id2 now_ts1 now_ts2 : Z) :
  now_id1 ≠ now_id2 →
  ClipboardItem.id (newItem c1 now_id1 now_ts1)
  ≠ ClipboardItem.id (newItem c2 now_id2 now_ts2).
Proof. intros Hne Heq. simpl in Heq. by apply toString_inj in Heq. Qed.

Lemma ids_differ_across_clock_readings_witness :
  1700000000001 ≠ 1700000000002
  ∧ ClipboardItem.id (newItem (js "a") 1700000000001 1700000000001)
    ≠ ClipboardItem.id (newItem (js "b") 1700000000002 1700000000002).
Proof.
  split; [lia|].
  apply (ids_differ_across_clock_readings (js "a") (js "b")
           1700000000001 1700000000002 1700000000001 1700000000002).
  lia.
Defined.

(** C5, as stated, fails: two events accepted in the same millisecond leave
    two different items with one id in the history. *)
Lemma same_millisecond_same_id :
  let st := ingestAll [Sample.capture "a" 5; Sample.capture "b" 5]
                      (Sample.box all []) in
  ∃ x y, clipboardHistory st = [x; y]
         ∧ x ≠ y
         ∧ ClipboardItem.id x = ClipboardItem.id y.
Proof.
  eexists _, _. split; [vm_compute; reflexivity|].
  split; [|reflexivity]. intros [=].
Qed.

(** C3 on the code.  The scan compares the stored (trimmed) content with the
    payload as it came: with ["hello"] stored as text, the payload
    ["hello "], whose trimmed form is ["hello"], is not skipped and a second
    ["hello"] is stored. *)
Theorem untrimmed_duplicate_accepted :
  let x := js "hello " in
  let st := Sample.box all [Sample.E2] in
  ClipboardItem.item_type Sample.E2 = text
  ∧ ClipboardItem.content Sample.E2 = trim x
  ∧ isBase64Image x = false
  ∧ skipped x (clipboardHistory st) = false
  ∧ ClipboardItem.content <$> clipboardHistory (addToHistory x 3 3 st)
    = [js "hello"; js "hello"].
Proof. vm_compute. repeat split. Qed.

(** C4 on the code.  From the empty history, the payload ["hello "] sent
    twice in a row is stored twice. *)
Theorem repeated_ingest_stored_twice :
  let x := js "hello " in
  let st := ingestAll [Sample.capture "hello " 1; Sample.capture "hello " 2]
                      (Sample.box all []) in
  isBlank x = false
  ∧ length (clipboardHistory st) = 2%nat
  ∧ ClipboardItem.content <$> clipboardHistory st = [js "hello"; js "hello"].
Proof. vm_compute. repeat split. Qed.

(* ===================================================================== *)
(** ** The two views and promotion *)
(* ===================================================================== *)

Section ViewFacts.

Implicit Types (st : ClipBox) (h : list ClipboardItem) (item : ClipboardItem).

Lemma sort_byTimestampDesc_Permutation h : sort byTimestampDesc h ≡ₚ h.
Proof. apply (sort_Permutation ClipboardItem.timestamp). Qed.

Lemma sort_byTimestampDesc_sorted h :
  StronglySorted newerFirst (sort byTimestampDesc h).
Proof. apply (sort_StronglySorted ClipboardItem.timestamp). Qed.

(** The part of [moveItemToTop] before [render]: an item found behind the
    front goes to the front and the others close the gap in their order. *)
Lemma moveItemToTop_store_moves id st pre item post :
  id ≠ [] →
  clipboardHistory st = pre ++ item :: post →
  pre ≠ [] →
  ClipboardItem.id item = id →
  Forall (λ x, ClipboardItem.id x ≠ id) pre →
  moveItemToTop_store id st = Some (setHistory (item :: pre ++ post) st).
Proof.
  intros Hid Hh Hpre Hitem Hnot. unfold moveItemToTop_store.
  destruct id as [|c id]; [done|]. simpl falsy. cbv iota.
  assert (Hfind : list_find (λ x, ClipboardItem.id x = c :: id)
                    (clipboardHistory st) = Some (length pre, item)).
  { apply list_find_Some. rewrite Hh. split; [|split; [done|]].
    - by rewrite list_lookup_middle.
    - intros j y Hj Hlt. rewrite lookup_app_l in Hj by done.
      rewrite Forall_forall in Hnot. apply Hnot.
      by eapply list_elem_of_lookup_2. }
  rewrite Hfind. destruct pre as [|p pre]; [done|]. simpl length.
  do 2 f_equal. f_equal. rewrite Hh.
  rewrite delete_take_drop.
  change (S (length pre)) with (length (p :: pre)).
  rewrite take_app_length.
  rewrite cons_middle, app_assoc, drop_app_length'; [done|].
  rewrite length_app; simpl; lia.
Qed.

(** Nothing is done for an id that is already in front, or that no item
    carries: [render] is not even called. *)
Lemma moveItemToTop_front id item h st :
  clipboardHistory st = item :: h →
  ClipboardItem.id item = id →
  moveItemToTop id st = st.
Proof.
  intros Hh Hid. unfold moveItemToTop, moveItemToTop_store.
  destruct (falsy id); [done|]. rewrite Hh. simpl.
  by rewrite decide_True.
Qed.

Lemma moveItemToTop_absent id st :
  Forall (λ x, ClipboardItem.id x ≠ id) (clipboardHistory st) →
  moveItemToTop id st = st.
Proof.
  intros Hnot. unfold moveItemToTop, moveItemToTop_store.
  destruct (falsy id); [done|].
  destruct (list_find _ _) as [[i x]|] eqn:Hf; [|done].
  apply list_find_Some in Hf as (Hi & Hx & _).
  rewrite Forall_forall in Hnot.
  exfalso. eapply Hnot; [|exact Hx]. by eapply list_elem_of_lookup_2.
Qed.

(** While the favorites tab is shown [render] sorts a copy, and promotion
    stays as [moveItemToTop_store] made it. *)
Lemma moveItemToTop_favorites id st st' :
  currentFilter st = favorites →
  moveItemToTop_store id st = Some st' →
  moveItemToTop id st = st'.
Proof.
  intros Hf Hm. unfold moveItemToTop. rewrite Hm.
  apply render_favorites.
  unfold moveItemToTop_store in Hm.
  destruct (falsy id); [done|].
  destruct (list_find _ _) as [[[|i] x]|]; simplify_eq; done.
Qed.

End ViewFacts.

(** C1, as the code has it.  With the "all" tab selected, the list that is
    shown holds exactly the stored items, ordered by timestamp with the
    newest first; items of equal timestamp keep their stored order; and a
    history that is already in that order is shown as it is stored. *)
Theorem all_view_sorted_by_timestamp (st : ClipBox) :
  currentFilter st = all →
  let view := (getFilteredItems st).1 in
  view ≡ₚ clipboardHistory st
  ∧ StronglySorted newerFirst view
  ∧ (∀ t, filter (λ item, ClipboardItem.timestamp item = t) view
          = filter (λ item, ClipboardItem.timestamp item = t)
                   (clipboardHistory st))
  ∧ (Sorted newerFirst (clipboardHistory st) → view = clipboardHistory st).
Proof.
  intros Hf. unfold getFilteredItems. rewrite Hf. simpl.
  split; [apply sort_byTimestampDesc_Permutation|].
  split; [apply sort_byTimestampDesc_sorted|].
  split.
  - intros t. apply (sort_stable ClipboardItem.timestamp).
  - apply (sort_Sorted_id ClipboardItem.timestamp).
Qed.

Lemma all_view_sorted_by_timestamp_witness :
  currentFilter (Sample.box all [Sample.E2; Sample.E1]) = all
  ∧ StronglySorted newerFirst
      (getFilteredItems (Sample.box all [Sample.E2; Sample.E1])).1.
Proof.
  split; [reflexivity|].
  apply (all_view_sorted_by_timestamp (Sample.box all [Sample.E2; Sample.E1])).
  reflexivity.
Defined.

(** C1, as stated, fails.  With the history [[E1; E2]], [E1] the newer one,
    promoting [E2] and then asking for the "all" view gives [[E1; E2]], not
    [[E2; E1]]; and a history stored as [[E2; E1]] is not shown in its
    stored order. *)
Lemma all_view_not_stored_order :
  let st := Sample.box all [Sample.E1; Sample.E2] in
  let promoted := Sample.box all [Sample.E2; Sample.E1] in
  moveItemToTop_store (ClipboardItem.id Sample.E2) st = Some promoted
  ∧ (getFilteredItems (moveItemToTop (ClipboardItem.id Sample.E2) st)).1
    = [Sample.E1; Sample.E2]
  ∧ (getFilteredItems promoted).1 = [Sample.E1; Sample.E2]
  ∧ (getFilteredItems promoted).1 ≠ clipboardHistory promoted.
Proof.
  assert (H : (getFilteredItems (Sample.box all [Sample.E2; Sample.E1])).1
              = [Sample.E1; Sample.E2]) by (vm_compute; reflexivity).
  split; [vm_compute; reflexivity|].
  split; [vm_compute; reflexivity|].
  split; [exact H|]. rewrite H. simpl. intros [=].
Qed.

(** C6. With the favorites tab selected, the list that is shown holds
    exactly the favorited items of the history, ordered by timestamp alone,
    newest first; the history itself is not touched; and however the same
    items are arranged in the history, the same timestamps are shown in the
    same places. *)
Theorem favorites_view_sorted (st : ClipBox) :
  currentFilter st = favorites →
  let view := (getFilteredItems st).1 in
  (getFilteredItems st).2 = st
  ∧ view ≡ₚ filter (λ item, ClipboardItem.is_favorite item = true)
                   (clipboardHistory st)
  ∧ (∀ item, item ∈ view
             ↔ item ∈ clipboardHistory st
               ∧ ClipboardItem.is_favorite item = true)
  ∧ StronglySorted newerFirst view
  ∧ (∀ st', currentFilter st' = favorites →
            clipboardHistory st' ≡ₚ clipboardHistory st →
            ClipboardItem.timestamp <$> (getFilteredItems st').1
            = ClipboardItem.timestamp <$> view).
Proof.
  intros Hf. unfold getFilteredItems. rewrite Hf. simpl.
  split; [done|].
  split; [apply sort_byTimestampDesc_Permutation|].
  split.
  { intros item. rewrite sort_byTimestampDesc_Permutation, list_elem_of_filter.
    tauto. }
  split; [apply sort_byTimestampDesc_sorted|].
  intros st' Hf' Hp. rewrite Hf'. simpl.
  apply (sorted_keys_unique ClipboardItem.timestamp);
    [apply sort_byTimestampDesc_sorted..|].
  by rewrite !sort_byTimestampDesc_Permutation, Hp.
Qed.

Lemma favorites_view_sorted_witness :
  currentFilter (Sample.box favorites [Sample.E2; Sample.E1]) = favorites
  ∧ (getFilteredItems (Sample.box favorites [Sample.E2; Sample.E1])).2
    = Sample.box favorites [Sample.E2; Sample.E1].
Proof.
  split; [reflexivity|].
  apply (favorites_view_sorted (Sample.box favorites [Sample.E2; Sample.E1])).
  reflexivity.
Defined.

(** C7 on the code.  With the "all" tab selected and the history
    [[E1; E2]], [E1] the newer one, [moveItemToTop] first puts [E2] in
    front and then calls [render], whose in-place sort puts [E1] back in
    front: when the call is over [E2] is at index 1. *)
Theorem promotion_undone_by_render :
  let st := Sample.box all [Sample.E1; Sample.E2] in
  moveItemToTop_store (ClipboardItem.id Sample.E2) st
  = Some (Sample.box all [Sample.E2; Sample.E1])
  ∧ clipboardHistory (moveItemToTop (ClipboardItem.id Sample.E2) st)
    = [Sample.E1; Sample.E2].
Proof. split; vm_compute; reflexivity. Qed.

(* ===================================================================== *)
(** ** The hotkey binding manager *)
(* ===================================================================== *)

Section HotkeyFacts.

Context (P : Plugin).
Implicit Types (w : World) (key : jsstring).

Lemma shrinks_refl w : shrinks w w.
Proof. by unfold shrinks. Qed.

Lemma shrinks_unregistered key w :
  shrinks w (setRegistered (registered w ∖ {[key]}) w).
Proof.
  unfold shrinks. simpl. split; [done|]. split; [done|].
  by apply subseteq_difference_l.
Qed.

Lemma unregisterGlobalShortcut_run key w :
  ∃ w', unregisterGlobalShortcut P key w = (Returned (), w')
        ∧ shrinks w w'
        ∧ (unregister_refused P key (registered w) = false →
           registered w' = registered w ∖ {[key]}).
Proof.
  unfold unregisterGlobalShortcut, tryCatch, unregister.
  destruct (unregister_refused P key (registered w)); simpl.
  - exists w. split; [done|]. split; [apply shrinks_refl|done].
  - eexists. split; [done|]. split; [apply shrinks_unregistered|done].
Qed.

(** [registerGlobalShortcut] never throws; when the plugin rejects the
    registration, no shortcut is added. *)
Lemma registerGlobalShortcut_refused key w :
  (∀ os, register_refused P key os = true) →
  ∃ w', registerGlobalShortcut P key w = (Returned (), w') ∧ shrinks w w'.
Proof.
  intros Hr.
  unfold registerGlobalShortcut, tryCatch, mbind, Async_bind, mret, Async_ret,
    unregister, register.
  destruct (unregister_refused P key (registered w)); simpl; rewrite Hr.
  - exists w. split; [done|apply shrinks_refl].
  - eexists. split; [done|apply shrinks_unregistered].
Qed.

Lemma tryCatch_returns (body : Async unit) w :
  (tryCatch body (mret ()) w).1 = Returned ().
Proof. unfold tryCatch. by destruct (body w) as [[[]|] w']. Qed.

Lemma saveShortcutKey_returns key w :
  (saveShortcutKey P key w).1 = Returned ().
Proof. apply tryCatch_returns. Qed.

End HotkeyFacts.

(** C9, as the code has it.  When the plugin rejects the registration of the
    new key, [saveShortcutKey] still resolves normally, with the void value
    it has on success (the failure is only logged); no shortcut is held
    afterwards that was not held before; and if the old key differed from
    the new one and its unregistration went through, the old key is no
    longer held, so that nothing is held when it was the only one. *)
Theorem rebind_failed_registration (P : Plugin) (key : jsstring) (w : World) :
  (∀ os, register_refused P (fixedKey key) os = true) →
  ∃ w', saveShortcutKey P key w = (Returned (), w')
        ∧ (∀ P', (saveShortcutKey P' key w).1 = Returned ())
        ∧ registered w' ⊆ registered w
        ∧ (let old := shortcutKey (app w) in
           old ≠ [] → old ≠ key →
           unregister_refused P old (registered w) = false →
           (old ∉ registered w')
           ∧ (registered w ⊆ {[old]} → registered w' = ∅)).
Proof.
  intros Hr.
  unfold saveShortcutKey, tryCatch at 1, mbind at 1, Async_bind at 1,
    readShortcutKey.
  set (old := shortcutKey (app w)).
  (* the optional unregistration of the old key *)
  assert (∃ w1,
    ((if negb (falsy old) && negb (strictEq old key)
      then tryCatch (unregisterGlobalShortcut P old) (mret ())
      else mret ()) : Async unit) w = (Returned (), w1)
    ∧ shrinks w w1
    ∧ (old ≠ [] → old ≠ key →
       unregister_refused P old (registered w) = false →
       registered w1 = registered w ∖ {[old]})) as (w1 & Hrun1 & Hs1 & Hun1).
  { destruct (negb (falsy old) && negb (strictEq old key)) eqn:Hc.
    - destruct (unregisterGlobalShortcut_run P old w) as (w1 & Hrun & Hs & Hun).
      exists w1. unfold tryCatch. rewrite Hrun. by auto.
    - exists w. split; [done|]. split; [apply shrinks_refl|].
      intros Hne Hkey _. exfalso.
      apply andb_false_iff in Hc as [Hc|Hc].
      + by destruct old.
      + apply negb_false_iff in Hc. unfold strictEq in Hc.
        by apply bool_decide_eq_true in Hc. }
  unfold mbind at 1, Async_bind at 1. rewrite Hrun1.
  unfold mbind at 1, Async_bind at 1, localStorage_setItem.
  set (w2 := {| app := app w1; clipboxShortcut := Some (fixedKey key);
                registered := registered w1 |}).
  destruct (registerGlobalShortcut_refused P (fixedKey key) w2 Hr)
    as (w3 & Hrun3 & Hs3).
  unfold mbind at 1, Async_bind at 1. rewrite Hrun3.
  unfold writeShortcutKey. eexists. split; [reflexivity|]. simpl.
  split; [intros P'; apply saveShortcutKey_returns|].
  destruct Hs1 as (_ & _ & Hsub1), Hs3 as (_ & _ & Hsub3). simpl in Hsub3.
  split; [by etrans|].
  intros Hne Hkey Hun. specialize (Hun1 Hne Hkey Hun).
  assert (Hold : old ∉ registered w3).
  { intros Hin. apply Hsub3 in Hin. rewrite Hun1 in Hin.
    apply elem_of_difference in Hin as [_ Hin].
    by apply Hin, elem_of_singleton. }
  split; [done|]. intros Honly.
  apply set_eq. intros x. split; [|by intros ?%not_elem_of_empty].
  intros Hx. exfalso.
  assert (x ∈ ({[old]} : gset jsstring)) as ->%elem_of_singleton
    by (by apply Honly, Hsub1, Hsub3).
  done.
Qed.

Lemma rebind_failed_registration_witness :
  (∀ os, register_refused Sample.rejecting (fixedKey (js "Ctrl+Alt+c")) os
         = true)
  ∧ ∃ w', saveShortcutKey Sample.rejecting (js "Ctrl+Alt+c") Sample.bound
          = (Returned (), w')
          ∧ registered w' = ∅.
Proof.
  split; [intros os; reflexivity|].
  destruct (rebind_failed_registration Sample.rejecting (js "Ctrl+Alt+c")
              Sample.bound (λ os, eq_refl))
    as (w' & Hrun & _ & _ & Hold).
  exists w'. split; [exact Hrun|].
  apply Hold; [discriminate | discriminate | reflexivity | reflexivity].
Defined.

(** C9, as stated, fails.  Bound to Ctrl+Alt+v and asked for Ctrl+Alt+c,
    with the plugin rejecting the registration: the call resolves to the
    very value it resolves to when the registration succeeds, so the caller
    is told nothing; and the object and the stored slot name the new key as
    the current one although no shortcut is held. *)
Lemma rebind_failure_not_reported :
  let key := js "Ctrl+Alt+c" in
  let failed := saveShortcutKey Sample.rejecting key Sample.bound in
  let succeeded := saveShortcutKey Sample.accepting key Sample.bound in
  registered failed.2 = ∅
  ∧ registered succeeded.2 = {[ key ]}
  ∧ failed.1 = succeeded.1
  ∧ shortcutKey (app failed.2) = key
  ∧ clipboxShortcut failed.2 = Some key.
Proof.
  cbv zeta.
  unfold saveShortcutKey, registerGlobalShortcut, unregisterGlobalShortcut,
    tryCatch, mbind, Async_bind, mret, Async_ret, readShortcutKey,
    unregister, register, localStorage_setItem, writeShortcutKey.
  simpl.
  change (fixedKey (js "Ctrl+Alt+c")) with (js "Ctrl+Alt+c").
  split; [|split; [|done]].
  - apply set_eq. intros x.
    rewrite !elem_of_difference, !elem_of_singleton, elem_of_empty. tauto.
  - apply set_eq. intros x.
    rewrite elem_of_union, !elem_of_difference, !elem_of_singleton.
    split; [intros [?|[[? ?] ?]]; done | by left].
Qed.

(* ===================================================================== *)
(** ** The list view helpers *)
(* ===================================================================== *)

(** X1. [truncateContent] returns short contents unchanged and never more
    than [maxLength + 3] code units; the first [maxLength] code units are
    those of the content; and truncating what was already truncated changes
    nothing. *)
Theorem truncateContent_bounded_idempotent
    (content : jsstring) (maxLength : nat) :
  ((length content ≤ maxLength)%nat → truncateContent content maxLength = content)
  ∧ (length (truncateContent content maxLength) ≤ maxLength + 3)%nat
  ∧ take maxLength (truncateContent content maxLength) = take maxLength content
  ∧ truncateContent (truncateContent content maxLength) maxLength
    = truncateContent content maxLength.
Proof.
  unfold truncateContent, substring0.
  destruct (Nat.leb_spec (length content) maxLength) as [Hle|Hgt].
  - split; [done|]. split; [lia|]. split; [done|].
    by destruct (Nat.leb_spec (length content) maxLength); [|lia].
  - assert (Hlen : length (take maxLength content ++ js "...")
                   = (maxLength + 3)%nat).
    { rewrite length_app, length_take. simpl. lia. }
    split; [lia|]. split; [lia|].
    assert (Htake : take maxLength (take maxLength content ++ js "...")
                    = take maxLength content).
    { rewrite take_app_le by (rewrite length_take; lia).
      rewrite take_take. f_equal. lia. }
    split; [done|].
    destruct (Nat.leb_spec (length (take maxLength content ++ js "..."))
                maxLength); [lia|].
    by rewrite Htake.
Qed.

(** X2. [formatTime] says "just now" for everything younger than a minute,
    timestamps in the future included; below an hour it shows a whole
    number of minutes between 1 and 59, below a day a whole number of hours
    between 1 and 23, both rounded down; from one day on it leaves the
    date to the runtime. *)
Theorem formatTime_ranges (timestamp now : Z) :
  let diff := now - timestamp in
  (diff < 60000 → formatTime timestamp now = Label label_justNow)
  ∧ (60000 ≤ diff < 3600000 →
     ∃ m, 1 ≤ m ≤ 59
          ∧ m * 60000 ≤ diff < (m + 1) * 60000
          ∧ formatTime timestamp now = Label (toString m ++ label_minutesAgo))
  ∧ (3600000 ≤ diff < 86400000 →
     ∃ h, 1 ≤ h ≤ 23
          ∧ h * 3600000 ≤ diff < (h + 1) * 3600000
          ∧ formatTime timestamp now = Label (toString h ++ label_hoursAgo))
  ∧ (86400000 ≤ diff → formatTime timestamp now = LocaleDate timestamp).
Proof.
  intros diff. unfold formatTime. fold diff.
  split; [|split; [|split]].
  - intros H. by destruct (Z.ltb_spec diff 60000); [|lia].
  - intros [H1 H2].
    destruct (Z.ltb_spec diff 60000); [lia|].
    destruct (Z.ltb_spec diff 3600000); [|lia].
    exists (diff / 60000).
    pose proof (Z.div_mod diff 60000 ltac:(lia)) as Hdm.
    pose proof (Z.mod_pos_bound diff 60000 ltac:(lia)) as Hmod.
    split; [|split; [|done]]; nia.
  - intros [H1 H2].
    destruct (Z.ltb_spec diff 60000); [lia|].
    destruct (Z.ltb_spec diff 3600000); [lia|].
    destruct (Z.ltb_spec diff 86400000); [|lia].
    exists (diff / 3600000).
    pose proof (Z.div_mod diff 3600000 ltac:(lia)) as Hdm.
    pose proof (Z.mod_pos_bound diff 3600000 ltac:(lia)) as Hmod.
    split; [|split; [|done]]; nia.
  - intros H.
    destruct (Z.ltb_spec diff 60000); [lia|].
    destruct (Z.ltb_spec diff 3600000); [lia|].
    by destruct (Z.ltb_spec diff 86400000); [lia|].
Qed.

(* ===================================================================== *)
(** ** More on [trim], [startsWith] and [includes] *)
(* ===================================================================== *)

Section StringFacts.

Implicit Types (s p a b w : jsstring).

Lemma trimStart_cons_id c s : isWhiteSpace c = false → trimStart (c :: s) = c :: s.
Proof. intros H. simpl. by rewrite H. Qed.

Lemma trimStart_split s : ∃ w, s = w ++ trimStart s ∧ whitespaceOnly w.
Proof.
  induction s as [|c s (w & Hs & Hw)]; simpl.
  - exists []. split; [done|constructor].
  - destruct (isWhiteSpace c) eqn:Hc.
    + exists (c :: w). split; [simpl; by f_equal|by constructor].
    + exists []. split; [done|constructor].
Qed.

Lemma trimStart_idemp s : trimStart (trimStart s) = trimStart s.
Proof.
  destruct (trimStart s) as [|c r] eqn:E; [done|].
  apply trimStart_cons_id. by eapply trimStart_head.
Qed.

Lemma trimEnd_split s : ∃ w, s = trimEnd s ++ w ∧ whitespaceOnly w.
Proof.
  unfold trimEnd. destruct (trimStart_split (reverse s)) as (w & Hs & Hw).
  exists (reverse w). split.
  - rewrite <- reverse_app, <- Hs. by rewrite reverse_involutive.
  - unfold whitespaceOnly. by rewrite Forall_reverse.
Qed.

Lemma trimEnd_idemp s : trimEnd (trimEnd s) = trimEnd s.
Proof. unfold trimEnd. by rewrite reverse_involutive, trimStart_idemp. Qed.

(** Trimming the end does not uncover whitespace at the start. *)
Lemma trimStart_trimEnd s : trimStart s = s → trimStart (trimEnd s) = trimEnd s.
Proof.
  intros Hs. destruct (trimEnd_split s) as (w & Hsplit & _).
  destruct (trimEnd s) as [|c r] eqn:E; [done|].
  apply trimStart_cons_id.
  rewrite Hsplit in Hs. simpl in Hs.
  destruct (isWhiteSpace c); [|done].
  exfalso.
  destruct (trimStart_split (r ++ w)) as (w' & Hw' & _).
  apply (f_equal length) in Hs. apply (f_equal length) in Hw'.
  rewrite (length_app w') in Hw'. simpl in Hs. lia.
Qed.

Lemma trim_idemp s : trim (trim s) = trim s.
Proof.
  unfold trim.
  rewrite (trimStart_trimEnd (trimStart s)) by apply trimStart_idemp.
  apply trimEnd_idemp.
Qed.

Lemma startsWith_spec s p : startsWith s p = true ↔ ∃ b, s = p ++ b.
Proof.
  revert s. induction p as [|c p IH]; intros s; simpl.
  - split; [by exists s | by destruct s].
  - destruct s as [|d s]; simpl; [split; [done | by intros (b & ?)]|].
    case_bool_decide as Hcd.
    + subst d. rewrite IH. split; intros (b & Hb); exists b; by simplify_eq.
    + split; [done|]. intros (b & Hb). by simplify_eq.
Qed.

Lemma includes_spec s p : includes s p = true ↔ ∃ a b, s = a ++ p ++ b.
Proof.
  induction s as [|c s IH]; cbn [includes].
  - rewrite orb_false_r, startsWith_spec. split.
    + intros (b & Hb). by exists [], b.
    + intros (a & b & Hab). destruct a; [by exists b|done].
  - rewrite orb_true_iff, startsWith_spec, IH. split.
    + intros [(b & Hb)|(a & b & Hab)]; [by exists [], b|].
      exists (c :: a), b. by rewrite Hab.
    + intros (a & b & Hab). destruct a as [|d a]; [left; by exists b|].
      right. exists a, b. simpl in Hab. by injection Hab.
Qed.

(** An occurrence that ends in a visible character survives the removal of
    trailing whitespace. *)
Lemma occurrence_before_trailing a p c b t w :
  isWhiteSpace c = false →
  a ++ (p ++ [c]) ++ b = t ++ w →
  whitespaceOnly w →
  ∃ b', t = a ++ (p ++ [c]) ++ b'.
Proof.
  intros Hc Heq Hw.
  assert (H1 : (a ++ p ++ [c]) `prefix_of` (t ++ w)).
  { exists b. by rewrite <- Heq, <- !app_assoc. }
  assert (H2 : t `prefix_of` (t ++ w)) by (by exists w).
  destruct (prefix_weak_total _ _ _ H1 H2) as [[k Hk]|[k Hk]].
  - exists k. by rewrite Hk, <- !app_assoc.
  - destruct k as [|d k _] using rev_ind.
    + exists []. rewrite !app_nil_r in *. by rewrite <- Hk.
    + exfalso.
      rewrite !app_assoc in Hk. apply app_inj_tail in Hk as [Hk ->].
      assert (w = (k ++ [d]) ++ b) as ->.
      { apply (app_inv_head t). rewrite <- Heq, !app_assoc. f_equal.
        by rewrite <- Hk, <- !app_assoc. }
      unfold whitespaceOnly in Hw. rewrite !Forall_app in Hw.
      destruct Hw as [[_ Hd] _]. inversion Hd; congruence.
Qed.

Lemma startsWith_trimEnd s p c :
  isWhiteSpace c = false →
  startsWith s (p ++ [c]) = true → startsWith (trimEnd s) (p ++ [c]) = true.
Proof.
  intros Hc (b & Hb)%startsWith_spec.
  destruct (trimEnd_split s) as (w & Hs & Hw).
  destruct (occurrence_before_trailing [] p c b (trimEnd s) w) as (b' & Hb');
    [done| by rewrite <- Hs |done|].
  apply startsWith_spec. by exists b'.
Qed.

Lemma includes_trimEnd s p c :
  isWhiteSpace c = false →
  includes s (p ++ [c]) = true → includes (trimEnd s) (p ++ [c]) = true.
Proof.
  intros Hc (a & b & Hb)%includes_spec.
  destruct (trimEnd_split s) as (w & Hs & Hw).
  destruct (occurrence_before_trailing a p c b (trimEnd s) w) as (b' & Hb');
    [done| by rewrite <- Hs |done|].
  apply includes_spec. by exists a, b'.
Qed.

(** A base64 image stays one when it is trimmed. *)
Lemma isBase64Image_trim s : isBase64Image s = true → isBase64Image (trim s) = true.
Proof.
  unfold isBase64Image. intros [Hstart Hincl]%andb_true_iff.
  assert (Hs : trimStart s = s).
  { apply startsWith_spec in Hstart as (b & ->). reflexivity. }
  unfold trim. rewrite Hs. apply andb_true_iff. split.
  - by apply (startsWith_trimEnd s (js "data:image") 47%N).
  - by apply (includes_trimEnd s (js "base64") 44%N).
Qed.

Lemma trim_nonblank s : isBlank s = false → trim s ≠ [].
Proof.
  intros Hb Ht. apply trim_nil, isBlank_spec in Ht. congruence.
Qed.


Lemma replace_absent s pat rep : includes s pat = false → replace s pat rep = s.
Proof.
  induction s as [|c s IH]; cbn [includes replace].
  - intros H%orb_false_iff. destruct H as [-> _]. done.
  - intros [-> H]%orb_false_iff. by rewrite IH.
Qed.

Lemma replace_same s (pat : jsstring) : replace s pat pat = s.
Proof.
  induction s as [|c s IH]; cbn [replace].
  - destruct (startsWith [] pat) eqn:E; [|done].
    apply startsWith_spec in E as (b & Hb).
    symmetry in Hb. apply app_eq_nil in Hb as [-> ->]. done.
  - destruct (startsWith (c :: s) pat) eqn:E; [|by rewrite IH].
    apply startsWith_spec in E as (b & Hb). rewrite Hb at 1.
    by rewrite drop_app_length, <- Hb.
Qed.

End StringFacts.

(* ===================================================================== *)
(** ** What the handlers do to the items *)
(* ===================================================================== *)

Section EventFacts.

Implicit Types (st : ClipBox) (h : list ClipboardItem)
               (item x y : ClipboardItem) (e : Event).

Lemma submseteq_NoDup {A} (l k : list A) : l ⊆+ k → NoDup k → NoDup l.
Proof.
  intros (k' & Hk)%submseteq_Permutation Hnd.
  rewrite Hk in Hnd. by apply NoDup_app in Hnd as [? _].
Qed.

Lemma setFavorite_setFavorite b b' item :
  setFavorite b (setFavorite b' item) = setFavorite b item.
Proof. done. Qed.

Lemma setFavorite_newItem content now_id now_ts :
  setFavorite false (newItem content now_id now_ts)
  = newItem content now_id now_ts.
Proof. done. Qed.

Lemma render_filter_Permutation f h k :
  clipboardHistory
    (render {| clipboardHistory := h; currentFilter := f; shortcutKey := k |})
  ≡ₚ h.
Proof. apply (render_Permutation {| clipboardHistory := h |}). Qed.

(** Favorite flags aside, a handler leaves in the history only items that
    were there, and the one it may have made. *)
Lemma handle_items e st :
  setFavorite false <$> clipboardHistory (handle e st)
  ⊆+ madeBy e st ++ (setFavorite false <$> clipboardHistory st).
Proof.
  destruct e as [c|id|id b|id|f|confirmed]; simpl.
  - unfold ingest, addToHistory.
    destruct (skipped _ _); [done|].
    rewrite render_Permutation. simpl. rewrite pushFront_take.
    rewrite <- (setFavorite_newItem (payload c) (clock_id c) (clock_ts c)) at 2.
    rewrite <- fmap_cons. apply fmap_submseteq, sublist_submseteq, sublist_take.
  - unfold moveItemToTop, moveItemToTop_store.
    destruct (falsy id); [done|].
    destruct (list_find _ _) as [[[|i] x]|] eqn:Hf; [done| |done].
    apply list_find_Some in Hf as (Hi & _ & _).
    rewrite render_Permutation. simpl.
    apply Permutation_submseteq. rewrite <- fmap_cons.
    by rewrite <- (delete_Permutation _ _ _ Hi).
  - unfold toggleFavorite.
    destruct (list_find _ _) as [[i x]|] eqn:Hf;
      rewrite render_Permutation; [|done]. simpl.
    apply list_find_Some in Hf as (Hi & _ & _).
    rewrite list_fmap_insert, setFavorite_setFavorite.
    rewrite list_insert_id; [done|]. by rewrite list_lookup_fmap, Hi.
  - unfold deleteItem. rewrite render_Permutation. simpl.
    apply fmap_submseteq, sublist_submseteq, sublist_filter.
  - unfold setFilter. by rewrite render_filter_Permutation.
  - unfold clearAllHistory. destruct confirmed; [|done].
    rewrite render_Permutation. simpl. apply submseteq_nil_l.
Qed.

Lemma handle_fmap {B} (f : ClipboardItem → B) e st :
  (∀ b x, f (setFavorite b x) = f x) →
  f <$> clipboardHistory (handle e st)
  ⊆+ (f <$> madeBy e st) ++ (f <$> clipboardHistory st).
Proof.
  intros Hf.
  assert (Hext : ∀ l : list ClipboardItem,
            f <$> (setFavorite false <$> l) = f <$> l).
  { intros l. rewrite <- list_fmap_compose. apply list_fmap_ext.
    intros _ x _. apply Hf. }
  rewrite <- (Hext (clipboardHistory (handle e st))),
          <- (Hext (clipboardHistory st)), <- fmap_app.
  apply fmap_submseteq, handle_items.
Qed.

(** A property of items that does not look at the favorite flag and holds
    of every item [addToHistory] makes is kept by every handler. *)
Lemma handle_Forall (P : ClipboardItem → Prop) e st :
  (∀ x y, setFavorite false x = setFavorite false y → P x → P y) →
  (∀ content now_id now_ts,
     isBlank content = false → P (newItem content now_id now_ts)) →
  Forall P (clipboardHistory st) →
  Forall P (clipboardHistory (handle e st)).
Proof.
  intros Hflag Hnew Hall. apply Forall_forall. intros y Hy.
  assert (Hin : setFavorite false y
                ∈ madeBy e st ++ (setFavorite false <$> clipboardHistory st)).
  { eapply elem_of_submseteq; [|apply handle_items].
    apply list_elem_of_fmap. by exists y. }
  apply elem_of_app in Hin as [Hin|Hin].
  - destruct e as [c| | | | |]; simpl in Hin; try by apply elem_of_nil in Hin.
    destruct (skipped _ _) eqn:Hs; [by apply elem_of_nil in Hin|].
    apply list_elem_of_singleton in Hin.
    apply (Hflag (newItem (payload c) (clock_id c) (clock_ts c))); [done|].
    apply Hnew. unfold skipped in Hs. by apply orb_false_iff in Hs as [? _].
  - apply list_elem_of_fmap in Hin as (x & Hx & Hin).
    apply (Hflag x); [done|]. rewrite Forall_forall in Hall. by apply Hall.
Qed.

Lemma run_Forall (P : ClipboardItem → Prop) es st :
  (∀ x y, setFavorite false x = setFavorite false y → P x → P y) →
  (∀ content now_id now_ts,
     isBlank content = false → P (newItem content now_id now_ts)) →
  Forall P (clipboardHistory st) →
  Forall P (clipboardHistory (run es st)).
Proof.
  intros Hflag Hnew. revert st.
  induction es as [|e es IH]; intros st Hall; simpl; [done|].
  by apply IH, handle_Forall.
Qed.

(** What the duplicate scan lets through is not in the history as it
    is. *)
Lemma sameAs_equal content item :
  ClipboardItem.content item = content → sameAs content item = true.
Proof.
  intros <-. unfold sameAs, strictEq.
  by destruct (_ && _); apply bool_decide_eq_true.
Qed.

Lemma skipped_false_absent content h :
  skipped content h = false → content ∉ ClipboardItem.content <$> h.
Proof.
  unfold skipped. intros [_ Hex]%orb_false_iff.
  intros (item & Hc & Hin)%list_elem_of_fmap.
  assert (existsb (sameAs content) h = true); [|congruence].
  apply existsb_exists. exists item.
  split; [by apply list_elem_of_In | by apply sameAs_equal].
Qed.

End EventFacts.

(* ===================================================================== *)
(** ** Invariants of the history over arbitrary runs *)
(* ===================================================================== *)

(** X3. Image items stay well formed: if every image item of the history
    has a base64 image as its content and an [image_path] whose trimmed form
    is that content, the same holds after any run of clipboard events and
    clicks.  In particular an item that [addToHistory] marks as an image is
    always one that [render] shows as an image. *)
Theorem image_items_well_formed (es : list Event) (st : ClipBox) :
  let wellFormed item :=
    ClipboardItem.item_type item = image →
    isBase64Image (ClipboardItem.content item) = true
    ∧ ∃ x, ClipboardItem.image_path item = Some x
           ∧ ClipboardItem.content item = trim x in
  Forall wellFormed (clipboardHistory st) →
  Forall wellFormed (clipboardHistory (run es st)).
Proof.
  intros wellFormed. apply run_Forall.
  - intros x y Hxy Hx Hy.
    apply (f_equal ClipboardItem.item_type) in Hxy as Ht.
    apply (f_equal ClipboardItem.content) in Hxy as Hc.
    apply (f_equal ClipboardItem.image_path) in Hxy as Hp.
    simpl in Ht, Hc, Hp. rewrite <- Hc, <- Hp. apply Hx. by rewrite Ht.
  - intros content now_id now_ts _ Hi. unfold newItem in *. simpl in *.
    destruct (isBase64Image content) eqn:Himg; [|done].
    split; [by apply isBase64Image_trim | by exists content].
Qed.

Lemma image_items_well_formed_witness :
  let wellFormed item :=
    ClipboardItem.item_type item = image →
    isBase64Image (ClipboardItem.content item) = true
    ∧ ∃ x, ClipboardItem.image_path item = Some x
           ∧ ClipboardItem.content item = trim x in
  Forall wellFormed (clipboardHistory (Sample.box all []))
  ∧ Forall wellFormed
      (clipboardHistory
         (run [ClipboardChanged
                 (Sample.capture "data:image/png;base64,iVBORw0KGgo= " 3);
               ItemClicked (js "3")]
              (Sample.box all []))).
Proof.
  split; [constructor|].
  apply (image_items_well_formed
           [ClipboardChanged
              (Sample.capture "data:image/png;base64,iVBORw0KGgo= " 3);
            ItemClicked (js "3")]
           (Sample.box all [])).
  constructor.
Defined.

(** X4. Stored contents stay normalized: if no item of the history has an
    empty content or a content with whitespace at either end, none has
    after any run of clipboard events and clicks. *)
Theorem stored_contents_normalized (es : list Event) (st : ClipBox) :
  let normalized item :=
    isBlank (ClipboardItem.content item) = false
    ∧ trim (ClipboardItem.content item) = ClipboardItem.content item in
  Forall normalized (clipboardHistory st) →
  Forall normalized (clipboardHistory (run es st)).
Proof.
  intros normalized. apply run_Forall.
  - intros x y Hxy Hx.
    apply (f_equal ClipboardItem.content) in Hxy. simpl in Hxy.
    unfold normalized. by rewrite <- Hxy.
  - intros content now_id now_ts Hb. unfold normalized. simpl.
    split; [|apply trim_idemp].
    destruct (isBlank (trim content)) eqn:E; [|done].
    apply isBlank_spec, trim_nil in E. rewrite trim_idemp in E.
    by apply trim_nonblank in Hb.
Qed.

Lemma stored_contents_normalized_witness :
  let normalized item :=
    isBlank (ClipboardItem.content item) = false
    ∧ trim (ClipboardItem.content item) = ClipboardItem.content item in
  Forall normalized (clipboardHistory (Sample.box all []))
  ∧ Forall normalized
      (clipboardHistory
         (run [ClipboardChanged (Sample.capture "  hello " 3);
               FavoriteClicked (js "3") true]
              (Sample.box all []))).
Proof.
  split; [constructor|].
  apply (stored_contents_normalized
           [ClipboardChanged (Sample.capture "  hello " 3);
            FavoriteClicked (js "3") true]
           (Sample.box all [])).
  constructor.
Defined.

(** X5. The duplicate test never matches across kinds: a payload and a
    stored content that it matches are both base64 images or both not.  A
    stored content equal to the payload always matches, and for a payload
    that is not an image nothing else does. *)
Theorem sameAs_respects_kind (content : jsstring) (item : ClipboardItem) :
  (ClipboardItem.content item = content → sameAs content item = true)
  ∧ (sameAs content item = true →
     isBase64Image content = isBase64Image (ClipboardItem.content item))
  ∧ (isBase64Image content = false →
     sameAs content item = true → ClipboardItem.content item = content).
Proof.
  split; [apply sameAs_equal|]. unfold sameAs, strictEq. split.
  - destruct (isBase64Image content) eqn:E1,
             (isBase64Image (ClipboardItem.content item)) eqn:E2;
      simpl; try done; intros Heq%bool_decide_eq_true; congruence.
  - intros ->. simpl. by intros Heq%bool_decide_eq_true.
Qed.

(** X6. No handler but the clipboard listener puts an item into the
    history, and it puts at most the one made from its payload: favorite
    flags aside, the items after any run are among the items before it and
    the items made from the clipboard events of the run, each counted at
    most as often as it occurs there. *)
Theorem items_come_from_captures (es : list Event) (st : ClipBox) :
  setFavorite false <$> clipboardHistory (run es st)
  ⊆+ (itemOf <$> captures es) ++ (setFavorite false <$> clipboardHistory st).
Proof.
  revert st. induction es as [|e es IH]; intros st; [done|].
  change (run (e :: es) st) with (run es (handle e st)).
  etrans; [apply IH|].
  assert (Hmade : madeBy e st ++ (itemOf <$> captures es)
                  ⊆+ itemOf <$> captures (e :: es)).
  { destruct e as [c| | | | |]; simpl; try done.
    destruct (skipped _ _); [by apply submseteq_cons|done]. }
  etrans; [apply submseteq_skips_l, handle_items|].
  rewrite app_assoc.
  rewrite (Permutation_app_comm (itemOf <$> captures es) (madeBy e st)).
  by apply submseteq_skips_r.
Qed.

(** X7. Contents stay pairwise different as long as payloads come without
    surrounding whitespace: from a history without two items of the same
    content, a run of clipboard events and clicks in which every payload
    equals its trimmed form never produces two items of the same content. *)
Theorem contents_stay_distinct (es : list Event) (st : ClipBox) :
  Forall (λ c, trim (payload c) = payload c) (captures es) →
  NoDup (ClipboardItem.content <$> clipboardHistory st) →
  NoDup (ClipboardItem.content <$> clipboardHistory (run es st)).
Proof.
  revert st. induction es as [|e es IH]; intros st Htrim Hnd; [done|].
  change (run (e :: es) st) with (run es (handle e st)).
  assert (Htrim' : Forall (λ c, trim (payload c) = payload c) (captures es)).
  { destruct e; simpl in Htrim; try done. by inversion Htrim. }
  apply IH; [done|].
  eapply submseteq_NoDup; [by apply (handle_fmap ClipboardItem.content)|].
  destruct e as [c| | | | |]; simpl; try done.
  destruct (skipped _ _) eqn:Hs; [done|]. simpl.
  apply NoDup_cons. split; [|done].
  inversion Htrim as [|? ? Hc _]; subst. rewrite Hc.
  by apply skipped_false_absent.
Qed.

Lemma contents_stay_distinct_witness :
  Forall (λ c, trim (payload c) = payload c)
    (captures [ClipboardChanged (Sample.capture "hello" 3);
               ItemClicked (js "1");
               ClipboardChanged (Sample.capture "hello" 4)])
  ∧ NoDup (ClipboardItem.content <$>
             clipboardHistory (Sample.box all [Sample.E1; Sample.E2]))
  ∧ NoDup (ClipboardItem.content <$>
             clipboardHistory
               (run [ClipboardChanged (Sample.capture "hello" 3);
                     ItemClicked (js "1");
                     ClipboardChanged (Sample.capture "hello" 4)]
                    (Sample.box all [Sample.E1; Sample.E2]))).
Proof.
  assert (H1 : Forall (λ c, trim (payload c) = payload c)
                 (captures [ClipboardChanged (Sample.capture "hello" 3);
                            ItemClicked (js "1");
                            ClipboardChanged (Sample.capture "hello" 4)])).
  { repeat constructor. }
  assert (H2 : NoDup (ClipboardItem.content <$>
                        clipboardHistory (Sample.box all [Sample.E1; Sample.E2]))).
  { apply (bool_decide_unpack _). vm_compute. exact I. }
  split; [exact H1|]. split; [exact H2|].
  exact (contents_stay_distinct _ _ H1 H2).
Defined.

(** X8. Ids stay pairwise different as long as the clock does not repeat:
    from a history with pairwise different ids, none of which is the numeral
    of a clock reading still to come, a run of clipboard events and clicks
    whose id clock readings are pairwise different never produces two items
    with the same id. *)
Theorem ids_stay_distinct (es : list Event) (st : ClipBox) :
  NoDup (clock_id <$> captures es) →
  Forall (λ c, toString (clock_id c)
               ∉ ClipboardItem.id <$> clipboardHistory st) (captures es) →
  NoDup (ClipboardItem.id <$> clipboardHistory st) →
  NoDup (ClipboardItem.id <$> clipboardHistory (run es st)).
Proof.
  revert st. induction es as [|e es IH]; intros st Hclk Hfresh Hnd; [done|].
  change (run (e :: es) st) with (run es (handle e st)).
  pose proof (handle_fmap ClipboardItem.id e st (λ _ _, eq_refl)) as Hsub.
  assert (Hnd' : NoDup (ClipboardItem.id <$> clipboardHistory (handle e st))).
  { eapply submseteq_NoDup; [exact Hsub|].
    destruct e as [c| | | | |]; simpl; try done.
    destruct (skipped _ _); [done|]. simpl.
    apply NoDup_cons. split; [|done]. by inversion Hfresh. }
  destruct e as [c| | | | |]; simpl in Hclk, Hfresh;
    try (apply IH; [done| |done];
         eapply Forall_impl; [exact Hfresh|]; simpl;
         intros c' Hc' Hin; apply Hc';
         by eapply elem_of_submseteq; [exact Hin|exact Hsub]).
  apply NoDup_cons in Hclk as [Hc Hclk].
  apply Forall_cons in Hfresh as [_ Hfresh].
  apply IH; [done| |done].
  apply Forall_forall. intros c' Hc' Hin.
  eapply elem_of_submseteq in Hin; [|exact Hsub].
  apply elem_of_app in Hin as [Hin|Hin].
  - simpl in Hin. destruct (skipped _ _); [by apply elem_of_nil in Hin|].
    apply list_elem_of_singleton in Hin. simpl in Hin.
    apply toString_inj in Hin. apply Hc.
    apply list_elem_of_fmap. by exists c'.
  - rewrite Forall_forall in Hfresh. by apply (Hfresh c').
Qed.

Lemma ids_stay_distinct_witness :
  NoDup (clock_id <$> captures [ClipboardChanged (Sample.capture "a" 5);
                                DeleteClicked (js "1");
                                ClipboardChanged (Sample.capture "b" 6)])
  ∧ Forall (λ c, toString (clock_id c)
                 ∉ ClipboardItem.id <$>
                     clipboardHistory (Sample.box all [Sample.E1; Sample.E2]))
      (captures [ClipboardChanged (Sample.capture "a" 5);
                 DeleteClicked (js "1");
                 ClipboardChanged (Sample.capture "b" 6)])
  ∧ NoDup (ClipboardItem.id <$>
             clipboardHistory (Sample.box all [Sample.E1; Sample.E2]))
  ∧ NoDup (ClipboardItem.id <$>
             clipboardHistory
               (run [ClipboardChanged (Sample.capture "a" 5);
                     DeleteClicked (js "1");
                     ClipboardChanged (Sample.capture "b" 6)]
                    (Sample.box all [Sample.E1; Sample.E2]))).
Proof.
  assert (H1 : NoDup (clock_id <$>
                 captures [ClipboardChanged (Sample.capture "a" 5);
                           DeleteClicked (js "1");
                           ClipboardChanged (Sample.capture "b" 6)])).
  { apply (bool_decide_unpack _). vm_compute. exact I. }
  assert (H2 : Forall (λ c, toString (clock_id c)
                 ∉ ClipboardItem.id <$>
                     clipboardHistory (Sample.box all [Sample.E1; Sample.E2]))
      (captures [ClipboardChanged (Sample.capture "a" 5);
                 DeleteClicked (js "1");
                 ClipboardChanged (Sample.capture "b" 6)])).
  { apply (bool_decide_unpack _). vm_compute. exact I. }
  assert (H3 : NoDup (ClipboardItem.id <$>
             clipboardHistory (Sample.box all [Sample.E1; Sample.E2]))).
  { apply (bool_decide_unpack _). vm_compute. exact I. }
  split; [exact H1|]. split; [exact H2|]. split; [exact H3|].
  exact (ids_stay_distinct _ _ H1 H2 H3).
Defined.

Section RenderFacts.

Implicit Types (st : ClipBox) (h : list ClipboardItem).

Lemma currentFilter_render st : currentFilter (render st) = currentFilter st.
Proof.
  unfold render, getFilteredItems. by destruct (currentFilter st) eqn:E.
Qed.

Lemma render_all_sorted st :
  currentFilter st = all →
  StronglySorted newerFirst (clipboardHistory (render st)).
Proof.
  intros Hf. unfold render, getFilteredItems. rewrite Hf. simpl.
  apply sort_byTimestampDesc_sorted.
Qed.

Lemma handle_all_sorted e st :
  (currentFilter st = all → StronglySorted newerFirst (clipboardHistory st)) →
  currentFilter (handle e st) = all →
  StronglySorted newerFirst (clipboardHistory (handle e st)).
Proof.
  intros Hst.
  assert (Hr : ∀ st', currentFilter (render st') = all →
                      StronglySorted newerFirst (clipboardHistory (render st'))).
  { intros st' Hf. apply render_all_sorted. by rewrite <- currentFilter_render. }
  destruct e as [c|id|id b|id|f|[]]; simpl.
  - unfold ingest, addToHistory. destruct (skipped _ _); [exact Hst|apply Hr].
  - unfold moveItemToTop.
    destruct (moveItemToTop_store id st); [apply Hr|exact Hst].
  - unfold toggleFavorite. destruct (list_find _ _) as [[i x]|]; apply Hr.
  - apply Hr.
  - apply Hr.
  - apply Hr.
  - exact Hst.
Qed.

End RenderFacts.

(** X9. [loadHistory] installs whatever the backend returned, at any
    length, and the empty history when the call fails or returns [null].
    The first event that is accepted afterwards cuts the history to
    [maxHistorySize]; an event that is skipped leaves it as long as it
    was. *)
Theorem loaded_history_cut_on_accept
    (loaded : list ClipboardItem) (content : jsstring) (now_id now_ts : Z)
    (st : ClipBox) :
  let st' := loadHistory (Some (Some loaded)) st in
  clipboardHistory st' = loaded
  ∧ clipboardHistory (loadHistory None st) = []
  ∧ clipboardHistory (loadHistory (Some None) st) = []
  ∧ (skipped content loaded = false →
     (length (clipboardHistory (addToHistory content now_id now_ts st'))
        ≤ maxHistorySize)%nat)
  ∧ (skipped content loaded = true →
     clipboardHistory (addToHistory content now_id now_ts st') = loaded).
Proof.
  cbv zeta. simpl. repeat split.
  - intros Hs. unfold addToHistory. simpl. rewrite Hs.
    rewrite render_Permutation. simpl. apply length_pushFront.
  - intros Hs. unfold addToHistory. simpl. by rewrite Hs.
Qed.

(** X10. A payload without surrounding whitespace is stored at most once
    however often it is sent in a row: after the first event, further
    events with the same payload change nothing, whatever the clock
    shows. *)
Theorem repeated_trimmed_payload_stored_once
    (content : jsstring) (now_id now_ts : Z) (cs : list Capture)
    (st : ClipBox) :
  trim content = content →
  Forall (λ c, payload c = content) cs →
  ingestAll cs (addToHistory content now_id now_ts st)
  = addToHistory content now_id now_ts st.
Proof.
  intros Ht Hcs. induction Hcs as [|c cs Hc _ IH]; [done|].
  change (ingestAll (c :: cs) ?s) with (ingestAll cs (ingest c s)).
  unfold ingest. rewrite Hc.
  by rewrite addToHistory_twice_trimmed.
Qed.

Lemma repeated_trimmed_payload_stored_once_witness :
  trim (js "hello") = js "hello"
  ∧ Forall (λ c, payload c = js "hello")
      [Sample.capture "hello" 4; Sample.capture "hello" 5]
  ∧ ingestAll [Sample.capture "hello" 4; Sample.capture "hello" 5]
      (addToHistory (js "hello") 3 3 (Sample.box all [Sample.E1]))
    = addToHistory (js "hello") 3 3 (Sample.box all [Sample.E1]).
Proof.
  assert (H1 : trim (js "hello") = js "hello") by reflexivity.
  assert (H2 : Forall (λ c, payload c = js "hello")
                 [Sample.capture "hello" 4; Sample.capture "hello" 5])
    by (repeat constructor).
  split; [exact H1|]. split; [exact H2|].
  exact (repeated_trimmed_payload_stored_once (js "hello") 3 3 _
           (Sample.box all [Sample.E1]) H1 H2).
Defined.

(** X11. While the "all" tab is selected the history in memory is kept in
    timestamp order, newest first: if that holds of the initial state, it
    holds after every run of clipboard events and clicks. *)
Theorem all_tab_history_sorted (es : list Event) (st : ClipBox) :
  (currentFilter st = all →
   StronglySorted newerFirst (clipboardHistory st)) →
  currentFilter (run es st) = all →
  StronglySorted newerFirst (clipboardHistory (run es st)).
Proof.
  revert st. induction es as [|e es IH]; intros st Hst; [done|].
  change (run (e :: es) st) with (run es (handle e st)).
  apply IH. by apply handle_all_sorted.
Qed.

Lemma all_tab_history_sorted_witness :
  (currentFilter (Sample.box favorites [Sample.E2; Sample.E1]) = all →
   StronglySorted newerFirst
     (clipboardHistory (Sample.box favorites [Sample.E2; Sample.E1])))
  ∧ currentFilter (run [ClipboardChanged (Sample.capture "a" 0);
                        TabClicked all; ItemClicked (js "1")]
                       (Sample.box favorites [Sample.E2; Sample.E1])) = all
  ∧ StronglySorted newerFirst
      (clipboardHistory
         (run [ClipboardChanged (Sample.capture "a" 0);
               TabClicked all; ItemClicked (js "1")]
              (Sample.box favorites [Sample.E2; Sample.E1]))).
Proof.
  assert (H1 : currentFilter (Sample.box favorites [Sample.E2; Sample.E1]) = all →
               StronglySorted newerFirst
                 (clipboardHistory (Sample.box favorites [Sample.E2; Sample.E1])))
    by (intros [=]).
  assert (H2 : currentFilter (run [ClipboardChanged (Sample.capture "a" 0);
                        TabClicked all; ItemClicked (js "1")]
                       (Sample.box favorites [Sample.E2; Sample.E1])) = all)
    by reflexivity.
  split; [exact H1|]. split; [exact H2|].
  exact (all_tab_history_sorted _ _ H1 H2).
Defined.

(* ===================================================================== *)
(** ** Delete, favorite, promote and copy *)
(* ===================================================================== *)

(** X12. [deleteItem] removes every item that carries the id (all of them,
    when several share it) and no other: what is left are exactly the items
    with another id, in their stored order while the favorites tab is
    selected; an id that no item carries removes nothing. *)
Theorem deleteItem_removes_exactly_id (id : jsstring) (st : ClipBox) :
  let kept := filter (λ item, ClipboardItem.id item ≠ id) (clipboardHistory st) in
  clipboardHistory (deleteItem id st) ≡ₚ kept
  ∧ (∀ x, x ∈ clipboardHistory (deleteItem id st)
          ↔ x ∈ clipboardHistory st ∧ ClipboardItem.id x ≠ id)
  ∧ (currentFilter st = favorites → clipboardHistory (deleteItem id st) = kept)
  ∧ (Forall (λ x, ClipboardItem.id x ≠ id) (clipboardHistory st) →
     clipboardHistory (deleteItem id st) ≡ₚ clipboardHistory st).
Proof.
  intros kept.
  assert (Hp : clipboardHistory (deleteItem id st) ≡ₚ kept).
  { unfold deleteItem. by rewrite render_Permutation. }
  split; [done|]. split; [|split].
  - intros x. rewrite Hp. subst kept. rewrite list_elem_of_filter. tauto.
  - intros Hf. unfold deleteItem. by rewrite render_favorites.
  - intros Hall. rewrite Hp. subst kept. clear Hp.
    induction Hall as [|x l Hx _ IH]; [done|].
    rewrite filter_cons, decide_True by done. by rewrite IH.
Qed.

(** X13. [toggleFavorite] changes nothing but one favorite flag: the
    history keeps its length and, flags aside, its items; when an item
    carries the id, the first such item receives the value the backend
    returned and every other item is left as it was; when none does,
    nothing changes. *)
Theorem toggleFavorite_sets_one_flag
    (id : jsstring) (newFavoriteState : bool) (st : ClipBox) :
  let after := clipboardHistory (toggleFavorite id newFavoriteState st) in
  length after = length (clipboardHistory st)
  ∧ setFavorite false <$> after ≡ₚ setFavorite false <$> clipboardHistory st
  ∧ (∀ index item,
       list_find (λ x, ClipboardItem.id x = id) (clipboardHistory st)
       = Some (index, item) →
       after ≡ₚ <[index := setFavorite newFavoriteState item]>
                  (clipboardHistory st)
       ∧ setFavorite newFavoriteState item ∈ after)
  ∧ (Forall (λ x, ClipboardItem.id x ≠ id) (clipboardHistory st) →
     after ≡ₚ clipboardHistory st).
Proof.
  intros after.
  destruct (list_find (λ x, ClipboardItem.id x = id) (clipboardHistory st))
    as [[i x]|] eqn:Hf.
  - pose proof Hf as (Hi & Hx & _)%list_find_Some.
    assert (Hp : after ≡ₚ <[i := setFavorite newFavoriteState x]>
                           (clipboardHistory st)).
    { subst after. unfold toggleFavorite. rewrite Hf.
      by rewrite render_Permutation. }
    split; [by rewrite Hp, length_insert|]. split; [|split].
    + rewrite Hp, list_fmap_insert, setFavorite_setFavorite.
      rewrite list_insert_id; [done|]. by rewrite list_lookup_fmap, Hi.
    + intros index item [= <- <-]. split; [done|]. rewrite Hp.
      eapply list_elem_of_lookup_2.
      apply list_lookup_insert_eq. by eapply lookup_lt_Some.
    + intros Hall. rewrite Forall_forall in Hall. exfalso.
      eapply Hall; [|exact Hx]. by eapply list_elem_of_lookup_2.
  - assert (Hp : after ≡ₚ clipboardHistory st).
    { subst after. unfold toggleFavorite. rewrite Hf.
      by rewrite render_Permutation. }
    split; [by rewrite Hp|]. split; [by rewrite Hp|]. split; [done|]. done.
Qed.

(** X14. While the favorites tab is selected, [moveItemToTop] does what its
    name says: the first item that carries the id goes to the front and the
    other items keep their order. *)
Theorem promotion_in_favorites_tab
    (id : jsstring) (st : ClipBox) (pre post : list ClipboardItem)
    (item : ClipboardItem) :
  currentFilter st = favorites →
  id ≠ [] →
  clipboardHistory st = pre ++ item :: post →
  ClipboardItem.id item = id →
  Forall (λ x, ClipboardItem.id x ≠ id) pre →
  clipboardHistory (moveItemToTop id st) = item :: pre ++ post.
Proof.
  intros Hf Hid Hh Hitem Hpre.
  destruct pre as [|p pre].
  - by rewrite (moveItemToTop_front id item post st).
  - rewrite (moveItemToTop_favorites id st
               (setHistory (item :: (p :: pre) ++ post) st)); [done|done|].
    by apply moveItemToTop_store_moves.
Qed.

Lemma promotion_in_favorites_tab_witness :
  currentFilter (Sample.box favorites [Sample.E1; Sample.E2]) = favorites
  ∧ js "1" ≠ []
  ∧ clipboardHistory (Sample.box favorites [Sample.E1; Sample.E2])
    = [Sample.E1] ++ Sample.E2 :: []
  ∧ ClipboardItem.id Sample.E2 = js "1"
  ∧ Forall (λ x, ClipboardItem.id x ≠ js "1") [Sample.E1]
  ∧ clipboardHistory
      (moveItemToTop (js "1") (Sample.box favorites [Sample.E1; Sample.E2]))
    = Sample.E2 :: [Sample.E1] ++ [].
Proof.
  assert (H1 : js "1" ≠ []) by discriminate.
  assert (H2 : Forall (λ x, ClipboardItem.id x ≠ js "1") [Sample.E1])
    by (repeat constructor; discriminate).
  split; [reflexivity|]. split; [exact H1|]. split; [reflexivity|].
  split; [reflexivity|]. split; [exact H2|].
  exact (promotion_in_favorites_tab (js "1")
           (Sample.box favorites [Sample.E1; Sample.E2])
           [Sample.E1] [] Sample.E2 eq_refl H1 eq_refl eq_refl H2).
Defined.

Section CopyFacts.

Lemma copyImageToClipboard_truthy c p :
  (c :: p) ≠ js "undefined" →
  copyImageToClipboard (c :: p)
  = if startsWith (c :: p) (js "data:image/")
    then Some (copy_base64_image_to_clipboard (c :: p))
    else Some (copy_image_to_clipboard (c :: p)).
Proof.
  intros Hne. unfold copyImageToClipboard, strictEq.
  rewrite !bool_decide_eq_false_2; [done| |done].
  by change (js "") with (@nil N).
Qed.

End CopyFacts.

(** X15. Clicking an item that [addToHistory] made from a payload sends the
    payload itself, untrimmed, to [copy_base64_image_to_clipboard] when the
    payload is a base64 image, and writes the trimmed payload as text
    otherwise. *)
Theorem copyItem_of_new_item (content : jsstring) (now_id now_ts : Z) :
  copyItem (newItem content now_id now_ts)
  = Some (if isBase64Image content
          then copy_base64_image_to_clipboard content
          else write_to_clipboard (trim content)).
Proof.
  unfold copyItem, newItem. simpl.
  destruct (isBase64Image content) eqn:Himg; simpl.
  - unfold isBase64Image in Himg. apply andb_true_iff in Himg as [Hstart _].
    pose proof Hstart as (b & Hb)%startsWith_spec.
    destruct content as [|c p]; [done|].
    assert (Hne : c :: p ≠ js "undefined").
    { intros Heq. rewrite Heq in Hb. discriminate. }
    unfold strictEq. rewrite bool_decide_eq_false_2 by done. simpl negb.
    cbv iota. rewrite copyImageToClipboard_truthy by done. by rewrite Hstart.
  - unfold copyToClipboard. by destruct (isBase64Image (trim content)).
Qed.

(** X16. A click on an item that was found always invokes exactly one
    backend command, and with usable arguments: [write_to_clipboard] gets
    the content of the item, [copy_image_to_clipboard] gets its non-empty
    [image_path], and [copy_base64_image_to_clipboard] gets the content or
    the [image_path], which then starts with ['data:image/']. *)
Theorem copyItem_arguments (item : ClipboardItem) :
  ∃ command, copyItem item = Some command
    ∧ match command with
      | write_to_clipboard c => c = ClipboardItem.content item
      | copy_image_to_clipboard p =>
          ClipboardItem.image_path item = Some p
          ∧ falsy p = false
      | copy_base64_image_to_clipboard b =>
          startsWith b (js "data:image/") = true
          ∧ (b = ClipboardItem.content item
             ∨ ClipboardItem.image_path item = Some b)
      end.
Proof.
  assert (Hcopy : ∀ content imagePath,
    ∃ command, copyToClipboard content imagePath = Some command
      ∧ match command with
        | write_to_clipboard c => c = content
        | copy_image_to_clipboard p => imagePath = Some p ∧ falsy p = false
        | copy_base64_image_to_clipboard b => False
        end).
  { intros content imagePath. unfold copyToClipboard.
    destruct (isBase64Image content); [by eexists|].
    destruct imagePath as [[|c p]|]; by eexists. }
  assert (Hbase : ∀ content,
    startsWith content (js "data:image/") = true →
    copyBase64ImageToClipboard content
    = Some (copy_base64_image_to_clipboard content)).
  { intros content Hs. unfold copyBase64ImageToClipboard. rewrite Hs.
    by destruct content. }
  assert (Hrest :
    ∃ command,
      (if startsWith (ClipboardItem.content item) (js "data:image/")
       then copyBase64ImageToClipboard (ClipboardItem.content item)
       else copyToClipboard (ClipboardItem.content item)
                            (ClipboardItem.image_path item)) = Some command
      ∧ match command with
        | write_to_clipboard c => c = ClipboardItem.content item
        | copy_image_to_clipboard p =>
            ClipboardItem.image_path item = Some p ∧ falsy p = false
        | copy_base64_image_to_clipboard b =>
            startsWith b (js "data:image/") = true
            ∧ (b = ClipboardItem.content item
               ∨ ClipboardItem.image_path item = Some b)
        end).
  { destruct (startsWith (ClipboardItem.content item) (js "data:image/")) eqn:Hs.
    - rewrite Hbase by done.
      exists (copy_base64_image_to_clipboard (ClipboardItem.content item)).
      split; [done|]. split; [done|]. by left.
    - destruct (Hcopy (ClipboardItem.content item)
                  (ClipboardItem.image_path item)) as (cmd & -> & Hcmd).
      exists cmd. split; [done|]. by destruct cmd. }
  unfold copyItem.
  destruct (ClipboardItem.item_type item).
  - destruct (Hcopy (ClipboardItem.content item)
                (ClipboardItem.image_path item)) as (cmd & -> & Hcmd).
    exists cmd. split; [done|]. by destruct cmd.
  - destruct (ClipboardItem.image_path item) as [[|c p]|] eqn:Hp;
      [exact Hrest| |exact Hrest].
    unfold strictEq. case_bool_decide as Hundef; simpl negb; cbv iota.
    + exact Hrest.
    + rewrite copyImageToClipboard_truthy by done.
      destruct (startsWith (c :: p) (js "data:image/")) eqn:Hs.
      * exists (copy_base64_image_to_clipboard (c :: p)).
        split; [done|]. split; [done|]. by right.
      * exists (copy_image_to_clipboard (c :: p)). by split.
Qed.

(* ===================================================================== *)
(** ** More on the hotkey binding manager *)
(* ===================================================================== *)

Section RebindFacts.

Context (P : Plugin).
Implicit Types (w : World) (k : jsstring).


Lemma registerGlobalShortcut_cases k w :
  ∃ w', registerGlobalShortcut P k w = (Returned (), w')
        ∧ app w' = app w
        ∧ clipboxShortcut w' = clipboxShortcut w
        ∧ registered w ∖ {[k]} ⊆ registered w'
        ∧ registered w' ⊆ {[k]} ∪ registered w
        ∧ ((∀ os, register_refused P k os = false) → k ∈ registered w').
Proof.
  unfold registerGlobalShortcut, tryCatch, mbind, Async_bind, mret, Async_ret,
    unregister, register.
  destruct (unregister_refused P k (registered w)) eqn:Hu; simpl;
    destruct (register_refused P k _) eqn:Hr; simpl;
    eexists; (split; [done|]); simpl;
    (split; [done|]); (split; [done|]).
  - split; [by apply subseteq_difference_l|].
    split; [by apply union_subseteq_r|]. intros H. by rewrite H in Hr.
  - split; [by apply union_subseteq_r', subseteq_difference_l|].
    split; [done|]. intros _. by apply elem_of_union_l, elem_of_singleton.
  - split; [done|].
    split; [by apply union_subseteq_r', subseteq_difference_l|].
    intros H. by rewrite H in Hr.
  - split; [by apply union_subseteq_r'|].
    split; [by apply union_mono_l, subseteq_difference_l|].
    intros _. by apply elem_of_union_l, elem_of_singleton.
Qed.


End RebindFacts.

Section ShortcutKeyFacts.


Lemma falsy_default currentPlatform :
  falsy (getDefaultShortcutKey currentPlatform) = false.
Proof.
  unfold getDefaultShortcutKey.
  destruct currentPlatform as [p|]; [|reflexivity].
  destruct (strictEq p (js "macos")); reflexivity.
Qed.

Lemma falsy_fixedKey c s : falsy (fixedKey (c :: s)) = false.
Proof.
  unfold fixedKey. cbn [replace].
  by destruct (startsWith (c :: s) (js "Meta")).
Qed.



End ShortcutKeyFacts.



(** X19. At start-up the current key becomes the stored key (with 'Meta'
    replaced by 'Cmd') when a non-empty one is stored, and the platform
    default otherwise; it is never empty; the stored slot is not written;
    and the key is registered when the plugin accepts it. *)
Theorem initShortcutKey_result
    (P : Plugin) (currentPlatform : Outcome jsstring) (w : World) :
  let chosen :=
    match clipboxShortcut w with
    | Some (c :: s) => fixedKey (c :: s)
    | _ => getDefaultShortcutKey currentPlatform
    end in
  ∃ w', initShortcutKey P currentPlatform w = (Returned (), w')
        ∧ shortcutKey (app w') = chosen
        ∧ falsy chosen = false
        ∧ clipboxShortcut w' = clipboxShortcut w
        ∧ registered w' ⊆ {[chosen]} ∪ registered w
        ∧ ((∀ os, register_refused P chosen os = false) →
           chosen ∈ registered w').
Proof.
  intros chosen.
  assert (Hload : ∃ w1, loadShortcutKey P currentPlatform w
                        = (Returned chosen, w1)
            ∧ app w1 = app w
            ∧ clipboxShortcut w1 = clipboxShortcut w
            ∧ registered w1 ⊆ {[chosen]} ∪ registered w
            ∧ ((∀ os, register_refused P chosen os = false) →
               chosen ∈ registered w1)).
  { unfold loadShortcutKey, tryCatch, mbind at 1, Async_bind at 1,
      localStorage_getItem.
    subst chosen.
    destruct (clipboxShortcut w) as [[|c s]|] eqn:Hslot;
      unfold mbind, Async_bind, mret, Async_ret;
      match goal with
      | |- context [registerGlobalShortcut P ?k w] =>
          destruct (registerGlobalShortcut_cases P k w)
            as (w1 & -> & Happ & Hs & _ & Hup & Hin)
      end;
      exists w1; rewrite ?Hs; auto. }
  destruct Hload as (w1 & Hrun & Happ & Hslot & Hup & Hin).
  unfold initShortcutKey, mbind, Async_bind. rewrite Hrun.
  unfold writeShortcutKey. eexists. split; [reflexivity|]. simpl.
  split; [done|]. split; [|done].
  subst chosen. destruct (clipboxShortcut w) as [[|c s]|];
    auto using falsy_default, falsy_fixedKey.
Qed.



(** X21. [formatShortcutDisplay] rewrites the first 'Cmd' to 'Command' and
    then the first 'Alt' to 'Option', and nothing else: its replacements of
    'Control' and 'Shift' by themselves have no effect, and a key that
    holds neither 'Cmd' nor 'Alt' is shown as it is. *)
Theorem formatShortcutDisplay_rewrites (key : jsstring) :
  formatShortcutDisplay key
  = replace (replace key (js "Cmd") (js "Command")) (js "Alt") (js "Option")
  ∧ (includes key (js "Cmd") = false → includes key (js "Alt") = false →
     formatShortcutDisplay key = key).
Proof.
  assert (H : formatShortcutDisplay key
              = replace (replace key (js "Cmd") (js "Command"))
                        (js "Alt") (js "Option")).
  { unfold formatShortcutDisplay. destruct key as [|c k]; [reflexivity|].
    simpl falsy. cbv iota. by rewrite !replace_same. }
  split; [done|]. intros H1 H2. rewrite H.
  by rewrite (replace_absent key) by done; rewrite replace_absent.
Qed.

(* ===================================================================== *)
(** ** The guard of the shortcut callback *)
(* ===================================================================== *)

Section GuardFacts.

Lemma guardStep_invariant g e :
  ((awaiting g + timers g ≤ 1)%nat
   ∧ (isShortcutProcessing g = true ↔ (awaiting g + timers g = 1)%nat)
   ∧ (toggled g = expired g + awaiting g + timers g)%nat) →
  let g' := guardStep g e in
  (awaiting g' + timers g' ≤ 1)%nat
  ∧ (isShortcutProcessing g' = true ↔ (awaiting g' + timers g' = 1)%nat)
  ∧ (toggled g' = expired g' + awaiting g' + timers g')%nat.
Proof.
  intros (Hle & Hflag & Hcount).
  destruct g as [flag a t n x]; simpl in *.
  destruct e; simpl.
  - destruct flag; simpl; [done|].
    assert (a + t ≠ 1)%nat by (intros H; by apply Hflag in H).
    split; [lia|]. split; [split; [lia|done]|lia].
  - destruct a as [|a]; simpl; [done|].
    split; [lia|]. split; [|lia].
    rewrite Hflag. lia.
  - destruct t as [|t]; simpl; [done|].
    split; [lia|]. split; [|lia].
    split; [done|lia].
Qed.

End GuardFacts.

(** X22. The callback registered for the shortcut lets at most one
    invocation through at a time: whatever the order in which triggers,
    completions of the toggle and timer expiries arrive, at most one
    invocation is awaiting the toggle or waiting for its 300 ms timer, the
    flag is set exactly then, and the window has been toggled once for every
    expired timer plus the invocation in progress, if any. *)
Theorem guard_one_in_flight (es : list GuardEvent) :
  let g := guardRun es in
  (awaiting g + timers g ≤ 1)%nat
  ∧ (isShortcutProcessing g = true ↔ (awaiting g + timers g = 1)%nat)
  ∧ (toggled g = expired g + awaiting g + timers g)%nat.
Proof.
  unfold guardRun.
  induction es as [|e es IH] using rev_ind.
  - simpl. split; [lia|]. split; [split; [done|lia]|lia].
  - rewrite foldl_snoc. by apply guardStep_invariant.
Qed.

(* ===================================================================== *)
(** ** Keyboard navigation *)
(* ===================================================================== *)

(** X23. Keyboard navigation keeps the selection inside the visible list:
    from an index in range every key leaves an index in range, ArrowDown
    brings any non-negative index back into range, and an item is copied
    only at an index in range.  With no visible item every key is ignored,
    Escape included. *)
Theorem keyboard_navigation_in_range
    (key : NavKey) (inSearch ctrlOrMeta : bool) (visible : nat)
    (selectedIndex : Z) :
  let result :=
    handleKeyboardNavigation key inSearch ctrlOrMeta visible selectedIndex in
  (visible = 0%nat → result = (selectedIndex, NoEffect))
  ∧ (0 ≤ selectedIndex < Z.of_nat visible → 0 ≤ result.1 < Z.of_nat visible)
  ∧ (result.2 = CopySelected → 0 ≤ result.1 < Z.of_nat visible)
  ∧ (key = ArrowDown → visible ≠ 0%nat → 0 ≤ selectedIndex →
     0 ≤ result.1 < Z.of_nat visible).
Proof.
  intros result. subst result. unfold handleKeyboardNavigation.
  destruct (Nat.eqb_spec visible 0) as [->|Hv].
  - split; [done|]. simpl. split; [lia|]. split; [done|]. done.
  - split; [done|].
    destruct key as [| | | |d|]; simpl;
      repeat match goal with
             | |- context [if ?b then _ else _] =>
                 let E := fresh "E" in destruct b eqn:E; simpl
             end;
      repeat split; intros; try done; try lia.
Qed.

(* ===================================================================== *)
(** ** The two views agree *)
(* ===================================================================== *)

Section SortFilterFacts.
Context {A : Type} (key : A → Z) (P : A → Prop) `{!∀ x, Decision (P x)}.

Local Abbreviation cmp := (λ a b : A, key b - key a).
Local Abbreviation desc := (λ a b : A, key b ≤ key a).

Lemma insert_head x l : Forall (λ y, key y ≤ key x) l → insert cmp x l = x :: l.
Proof.
  destruct 1 as [|y l Hy _]; simpl; [done|].
  by destruct (Z.ltb_spec 0 (key y - key x)); [lia|].
Qed.

Lemma filter_insert x l :
  StronglySorted desc l →
  filter P (insert cmp x l)
  = if decide (P x) then insert cmp x (filter P l) else filter P l.
Proof.
  induction 1 as [|y l Hl IH Hy]; simpl.
  - rewrite filter_cons. by destruct (decide (P x)).
  - destruct (Z.ltb_spec 0 (key y - key x)) as [Hlt|Hge].
    + rewrite !filter_cons, IH.
      destruct (decide (P y)), (decide (P x)); simpl; try done.
      by destruct (Z.ltb_spec 0 (key y - key x)); [|lia].
    + rewrite (filter_cons _ x).
      destruct (decide (P x)); [|done].
      rewrite insert_head; [done|].
      apply Forall_forall. intros z [_ Hz]%list_elem_of_filter.
      apply elem_of_cons in Hz as [->|Hz]; [lia|].
      rewrite Forall_forall in Hy. specialize (Hy z Hz). simpl in Hy. lia.
Qed.

(** Sorting and filtering can be done in either order. *)
Lemma filter_sort l : filter P (sort cmp l) = sort cmp (filter P l).
Proof.
  induction l as [|x l IH]; [done|].
  cbn [sort foldr]. rewrite filter_insert by apply (sort_StronglySorted key).
  fold (sort cmp l). rewrite IH, filter_cons.
  by destruct (decide (P x)).
Qed.

End SortFilterFacts.

(** X24. The favorites tab shows the favorites in the order in which the
    "all" tab shows them: the favorites view is the "all" view of the same
    history with the items that are not favorites left out. *)
Theorem favorites_view_is_filtered_all_view
    (history : list ClipboardItem) (k : jsstring) :
  (getFilteredItems {| clipboardHistory := history;
                       currentFilter := favorites; shortcutKey := k |}).1
  = filter (λ item, ClipboardItem.is_favorite item = true)
      (getFilteredItems {| clipboardHistory := history;
                           currentFilter := all; shortcutKey := k |}).1.
Proof.
  unfold getFilteredItems. simpl. symmetry.
  apply (filter_sort ClipboardItem.timestamp).
Qed.

(* ===================================================================== *)
(** ** Clearing the history *)
(* ===================================================================== *)

(** X25. Clearing asks twice when the first answer is no: a declined (or
    missing) native confirmation does not end [clearAllHistory], the answer
    given in the modal decides.  When either dialog is accepted the history
    and both views are empty, favorites included; when both are declined
    the object is left as it was. *)
Theorem clearAllHistory_double_prompt
    (native : option bool) (custom : bool) (st : ClipBox) :
  let st' := clearAllHistory (clearAllConfirmed native custom) st in
  (native = Some true ∨ custom = true →
   clipboardHistory st' = [] ∧ (getFilteredItems st').1 = [])
  ∧ (native = Some false ∨ native = None → custom = true →
     clipboardHistory st' = [])
  ∧ ((native = Some false ∨ native = None) ∧ custom = false → st' = st).
Proof.
  assert (Hclear : clipboardHistory (clearAllHistory true st) = []
                   ∧ (getFilteredItems (clearAllHistory true st)).1 = []).
  { unfold clearAllHistory, render, getFilteredItems, setHistory. simpl.
    destruct (currentFilter st) eqn:E; simpl; by rewrite ?E. }
  cbv zeta. split; [|split].
  - intros [->| ->]; [exact Hclear|].
    by destruct native as [[]|]; exact Hclear.
  - intros [->| ->] ->; apply Hclear.
  - by intros [[->| ->] ->].
Qed.
